(** * QR generation service: request validation and encoding pipeline

    A shallow embedding of the Go service made of
    - package [qr] (the Generation Service: [qr.Generate], [qr.truncateString]),
    - package [transport] (the Request Handler: [transport.Generate],
      [transport.HealthCheck]),
    - package [logger] (logging configuration: [logger.InitLogger],
      [logger.getLogLevelFromEnv], [logger.Sync]),
    together with small models of the library calls they make
    ([strconv.Atoi], [url.Get], [http.MaxBytesReader], [io.ReadAll],
    [http.Error], the response writer, [json.Encode]).

    Go values are modelled as follows: [int] and [int64] as [Z] (the code
    only compares them), [[]byte] as [list byte], Go strings (immutable byte
    sequences) as [string], [map[string][]string] as [gmap string (list string)],
    a Go [(value, error)] result as a pair whose second component is an
    [option error] ([None] is [nil]).

    Effects are explicit: every function that logs, calls the encoding engine,
    calls the service interface or reads the request body lives in the monad
    [M], which reads the linked encoding engine and accumulates the
    chronological list of [Event]s; a run-time panic is an [Outcome]. *)

From Stdlib Require Import ZArith Lia List String Ascii Bool.
From Stdlib Require Import Strings.Byte.
From stdpp Require Import base option list strings gmap pretty.

Local Open Scope string_scope.
Local Open Scope Z_scope.

(** ** Errors *)

(** Go [error] values, by the concrete types that occur in the program. *)
Inductive error : Type :=
| errorString (msg : string)
    (* errors.New(msg), and fmt.Errorf(msg) without a %w verb *)
| wrapError (prefix : string) (cause : error)
    (* fmt.Errorf(prefix + "%w", cause): the text is prefix followed by the
       text of cause, and Unwrap returns cause *)
| NumError (Func Num : string) (Err : error)
    (* *strconv.NumError *)
| MaxBytesError (Limit : Z).
    (* *http.MaxBytesError *)

Module errors.

(** [errors.As(err, &maxErr)] with [maxErr : *http.MaxBytesError]: walks the
    Unwrap chain of [err] and reports whether a [*http.MaxBytesError] is on
    it. *)
Fixpoint As_MaxBytesError (err : error) : bool :=
  match err with
  | MaxBytesError _ => true
  | wrapError _ cause => As_MaxBytesError cause
  | NumError _ _ cause => As_MaxBytesError cause
  | errorString _ => false
  end.

End errors.

(** ** Go strings and byte slices *)

(** The double-quote character, for JSON text. *)
Definition dquote : ascii := "034"%char.

(** [len(s)] of a Go string, as an [int]. *)
Definition len (s : string) : Z := Z.of_nat (String.length s).

(** [len(b)] of a byte slice. *)
Definition blen (b : list byte) : Z := Z.of_nat (length b).

(** The conversions [string(data)] and [[]byte(s)]. *)
Definition string_of_bytes (data : list byte) : string :=
  string_of_list_byte data.
Definition bytes_of_string (s : string) : list byte :=
  list_byte_of_string s.

(** ** The encoding engine *)

Module qrcode.

(** [qrcode.RecoveryLevel] of github.com/skip2/go-qrcode. *)
Inductive RecoveryLevel : Type := Low | Medium | High | Highest.

(** The signature of [qrcode.Encode(content, level, size) ([]byte, error)].
    The engine is an external library: the program is verified against an
    arbitrary function of this type. *)
Definition Engine : Type :=
  string -> RecoveryLevel -> Z -> list byte * option error.

End qrcode.

(** ** Effects: the event trace and the monad *)

Inductive Level : Type := LevelDebug | LevelInfo | LevelWarn | LevelError.

(** Values of the key/value attributes given to the logger. *)
Inductive Value : Type :=
| VInt (z : Z)
| VStr (s : string)
| VErr (e : option error).

Inductive Event : Type :=
| Log (lvl : Level) (msg : string) (attrs : list (string * Value))
    (* a call of logger.Debug / Info / Warn / Error *)
| ReadBody (got : list byte) (err : option error)
    (* io.ReadAll(r.Body) and what it returned *)
| CallService (data : list byte) (size : Z)
    (* a call of the qr.Service interface method Generate *)
| CallEncode (content : string) (level : qrcode.RecoveryLevel) (size : Z).
    (* a call of qrcode.Encode *)

Inductive Outcome (A : Type) : Type :=
| Ret (a : A)
| Panic (msg : string).
Arguments Ret {A} a.
Arguments Panic {A} msg.

Definition M (A : Type) : Type := qrcode.Engine -> Outcome A * list Event.

#[global] Instance M_ret : MRet M := fun A a _ => (Ret a, []).

#[global] Instance M_bind : MBind M := fun A B f m eng =>
  match m eng with
  | (Ret a, t1) => let '(o, t2) := f a eng in (o, (t1 ++ t2)%list)
  | (Panic msg, t1) => (Panic msg, t1)
  end.

Definition emit (e : Event) : M unit := fun _ => (Ret tt, [e]).

Definition panic {A : Type} (msg : string) : M A := fun _ => (Panic msg, []).

(** The call [qrcode.Encode(content, level, size)] of the linked engine,
    recorded in the trace. *)
Definition callEncode (content : string) (level : qrcode.RecoveryLevel)
  (size : Z) : M (list byte * option error) :=
  fun eng => (Ret (eng content level size), [CallEncode content level size]).

(** [err != nil]. *)
Definition notNil (err : option error) : bool :=
  match err with
  | Some _ => true
  | None => false
  end.

(** Unwraps the result of an operation that panics at run time when it is
    [None]. *)
Definition must {A : Type} (o : option A) (msg : string) : M A :=
  match o with
  | Some a => mret a
  | None => panic msg
  end.

(** The outcome and the trace of a run against engine [eng]. *)
Definition outcome {A : Type} (m : M A) (eng : qrcode.Engine) : Outcome A :=
  fst (m eng).
Definition trace {A : Type} (m : M A) (eng : qrcode.Engine) : list Event :=
  snd (m eng).

(** *** Observations on traces *)

Definition encodeCalls (t : list Event)
  : list (string * qrcode.RecoveryLevel * Z) :=
  omap (fun e => match e with
                 | CallEncode c l s => Some (c, l, s)
                 | _ => None
                 end) t.

Definition serviceCalls (t : list Event) : list (list byte * Z) :=
  omap (fun e => match e with
                 | CallService d s => Some (d, s)
                 | _ => None
                 end) t.

Definition bodyReads (t : list Event) : list (list byte * option error) :=
  omap (fun e => match e with
                 | ReadBody b err => Some (b, err)
                 | _ => None
                 end) t.

(** The value of attribute [key] in an attribute list (first occurrence). *)
Fixpoint attr (key : string) (attrs : list (string * Value)) : option Value :=
  match attrs with
  | [] => None
  | (k, v) :: rest => if String.eqb k key then Some v else attr key rest
  end.

(** The values logged under attribute [key], over a whole trace. *)
Definition logged (key : string) (t : list Event) : list Value :=
  omap (fun e => match e with
                 | Log _ _ attrs => attr key attrs
                 | _ => None
                 end) t.

(** ** The logger *)

(** [*slog.Logger]: an opaque handle; every call on it is recorded in the
    trace, whatever level its sink is configured to keep. *)
Inductive Logger : Type := slogLogger.

Module slog.
Definition Debug (_ : Logger) (msg : string) (attrs : list (string * Value))
  : M unit := emit (Log LevelDebug msg attrs).
Definition Info (_ : Logger) (msg : string) (attrs : list (string * Value))
  : M unit := emit (Log LevelInfo msg attrs).
Definition Warn (_ : Logger) (msg : string) (attrs : list (string * Value))
  : M unit := emit (Log LevelWarn msg attrs).
Definition Error (_ : Logger) (msg : string) (attrs : list (string * Value))
  : M unit := emit (Log LevelError msg attrs).
End slog.

(** ** Library calls made by the program *)

Module strconv.

Definition ErrSyntax : error := errorString "invalid syntax".
Definition ErrRange : error := errorString "value out of range".

Inductive failure : Type := syntaxFailure | rangeFailure.

Definition maxUint64 : Z := 2 ^ 64 - 1.

(** The digit loop of [ParseUint(s, 10, 64)]: every byte must be a decimal
    digit (with base 10 given explicitly neither letters nor underscores
    are digits), and the accumulated value must stay below 2^64. *)
Fixpoint parseDigits (s : string) (n : Z) : Z + failure :=
  match s with
  | EmptyString => inl n
  | String ch rest =>
      let c := Z.of_N (N_of_ascii ch) in
      if (48 <=? c) && (c <=? 57) then
        if maxUint64 / 10 + 1 <=? n then inr rangeFailure (* n*10 overflows *)
        else
          let n1 := n * 10 + (c - 48) in
          if maxUint64 <? n1 then inr rangeFailure        (* n+d overflows *)
          else parseDigits rest n1
      else inr syntaxFailure
  end.

(** [ParseUint(s, 10, 64)]: the empty string is a syntax error. *)
Definition ParseUint (s : string) : Z + failure :=
  match s with
  | EmptyString => inr syntaxFailure
  | _ => parseDigits s 0
  end.

(** [ParseInt(s, 10, 0)] on a platform whose [int] has 64 bits: an optional
    sign, then [ParseUint]; a magnitude outside the [int] range is a range
    error that returns the nearest representable value. *)
Definition ParseInt (s : string) : Z * option failure :=
  match s with
  | EmptyString => (0, Some syntaxFailure)
  | String ch rest =>
      let neg := Ascii.eqb ch "-" in
      let digits := if Ascii.eqb ch "+" || neg then rest else s in
      let cutoff := 2 ^ 63 in
      match ParseUint digits with
      | inr syntaxFailure => (0, Some syntaxFailure)
      | inr rangeFailure =>
          (if neg then - cutoff else cutoff - 1, Some rangeFailure)
      | inl un =>
          if negb neg && (cutoff <=? un) then (cutoff - 1, Some rangeFailure)
          else if neg && (cutoff <? un) then (- cutoff, Some rangeFailure)
          else (if neg then - un else un, None)
      end
  end.

(** [strconv.Atoi(s)]: [ParseInt(s, 10, 0)] converted to [int], a failure
    being reported as a [*NumError] that names [Atoi] and the input.  (The
    source also has a fast path for short inputs, which computes the same
    result.) *)
Definition Atoi (s : string) : Z * option error :=
  match ParseInt s with
  | (n, None) => (n, None)
  | (n, Some syntaxFailure) => (n, Some (NumError "Atoi" s ErrSyntax))
  | (n, Some rangeFailure) => (n, Some (NumError "Atoi" s ErrRange))
  end.

End strconv.

Module url.

(** [url.Values]: the parsed query string, each key with the list of its
    values in order of appearance ([?size=] parses to [size] with the one
    value [""]). *)
Abbreviation Values := (gmap string (list string)).

(** [Values.Get(key)]: the first value of [key], or the empty string when
    the key has no value. *)
Definition Get (v : Values) (key : string) : string :=
  match v !! key with
  | Some (x :: _) => x
  | _ => ""
  end.

(** [Values.Has(key)]: whether the key is set. *)
Definition Has (v : Values) (key : string) : bool :=
  bool_decide (is_Some (v !! key)).

End url.

Module io.

(** An [io.ReadCloser] that has not been read yet: the bytes it will deliver,
    and how the stream ends ([None] is a clean [io.EOF], [Some e] a read
    failure [e] after the bytes). *)
Record Reader : Type := { pending : list byte; ending : option error }.

(** [io.ReadAll(r)]: reads until the end of the stream and returns what was
    read, with a [nil] error at [io.EOF] and the failure otherwise.  The call
    is recorded in the trace. *)
Definition ReadAll (r : Reader) : M (list byte * option error) :=
  emit (ReadBody (pending r) (ending r)) ;; mret (pending r, ending r).

End io.

Module http.

Definition MethodPost : string := "POST".

Definition StatusOK : Z := 200.
Definition StatusBadRequest : Z := 400.
Definition StatusMethodNotAllowed : Z := 405.
Definition StatusRequestEntityTooLarge : Z := 413.
Definition StatusInternalServerError : Z := 500.

(** The part of [*http.Request] the handlers use; [Query] is the result of
    [r.URL.Query()]. *)
Record Request : Type := {
  Method : string;
  Body : io.Reader;
  Query : url.Values;
  RemoteAddr : string;
  UserAgent : string;
  ContentLength : Z
}.

(** An [http.ResponseWriter]: the header map under construction, the status
    line and headers once they have been written, the body bytes handed to
    [Write] so far, and the failure the connection reports on a write
    ([None] for a healthy connection). *)
Record ResponseWriter : Type := {
  header : gmap string string;
  sent : option (Z * gmap string string);
  body : list byte;
  fault : option error
}.

(** A fresh response writer on a healthy connection, as the server hands to
    a handler. *)
Definition NewRecorder : ResponseWriter :=
  {| header := ∅; sent := None; body := []; fault := None |}.

(** The status code and a header of the response as sent. *)
Definition Code (w : ResponseWriter) : option Z := fst <$> sent w.
Definition SentHeader (w : ResponseWriter) (key : string) : option string :=
  sent w ≫= fun p => snd p !! key.

(** [w.Header().Set(key, value)] and [w.Header().Del(key)]. *)
Definition SetHeader (w : ResponseWriter) (key value : string)
  : ResponseWriter :=
  {| header := <[key := value]> (header w); sent := sent w;
     body := body w; fault := fault w |}.
Definition DelHeader (w : ResponseWriter) (key : string) : ResponseWriter :=
  {| header := delete key (header w); sent := sent w;
     body := body w; fault := fault w |}.

(** [w.WriteHeader(code)]: sends the status line with the current headers;
    only the first call has an effect. *)
Definition WriteHeader (w : ResponseWriter) (code : Z) : ResponseWriter :=
  match sent w with
  | Some _ => w
  | None => {| header := header w; sent := Some (code, header w);
               body := body w; fault := fault w |}
  end.

(** [w.Write(p)]: sends status 200 first when no status was written; the
    bytes are handed to the connection, whose failure, if any, is returned. *)
Definition WriteBytes (w : ResponseWriter) (p : list byte)
  : ResponseWriter * option error :=
  let w := WriteHeader w StatusOK in
  ({| header := header w; sent := sent w;
      body := (body w ++ p)%list; fault := fault w |}, fault w).

Definition newline : string := String "010"%char EmptyString.

(** [http.Error(w, msg, code)]: a plain-text reply; the result of the final
    [fmt.Fprintln(w, msg)] is ignored. *)
Definition Error (w : ResponseWriter) (msg : string) (code : Z)
  : ResponseWriter :=
  let w := DelHeader w "Content-Length" in
  let w := SetHeader w "Content-Type" "text/plain; charset=utf-8" in
  let w := SetHeader w "X-Content-Type-Options" "nosniff" in
  let w := WriteHeader w code in
  fst (WriteBytes w (bytes_of_string (msg ++ newline))).

(** [http.MaxBytesReader(w, r, n)]: a reader that delivers at most [n] bytes
    of [r] and fails with a [*MaxBytesError] when [r] holds more; a negative
    limit counts as 0. *)
Definition MaxBytesReader (w : ResponseWriter) (r : io.Reader) (n : Z)
  : io.Reader :=
  let n := if n <? 0 then 0 else n in
  if n <? blen (io.pending r)
  then {| io.pending := take (Z.to_nat n) (io.pending r);
          io.ending := Some (MaxBytesError n) |}
  else r.

End http.

Module json.

Definition quote (s : string) : string :=
  String dquote (s ++ String dquote EmptyString).

(** [json.Marshal] of a [map[string]string] whose entries are given in key
    order, for keys and values that need no escaping. *)
Definition Marshal (m : list (string * string)) : string :=
  "{" ++ String.concat ","
           (List.map (fun kv => quote (fst kv) ++ ":" ++ quote (snd kv)) m)
      ++ "}".

(** [json.NewEncoder(w).Encode(m)]: writes the object followed by a newline. *)
Definition Encode (w : http.ResponseWriter) (m : list (string * string))
  : http.ResponseWriter * option error :=
  http.WriteBytes w (bytes_of_string (Marshal m ++ http.newline)).

End json.

(** ** Package qr: the Generation Service *)

Module qr.

(** The interface [Service]: a value with the single method [Generate]. *)
Record Service : Type := {
  Service_Generate : list byte -> Z -> M (list byte * option error)
}.

Record service : Type := { logger : Logger }.

(** [truncateString(s, maxLen)].  [None] is the run-time panic of the slice
    expression [s[:maxLen]] for a negative [maxLen]. *)
Definition truncateString (s : string) (maxLen : Z) : option string :=
  if len s <=? maxLen then Some s
  else if maxLen <? 0 then None
  else Some (String.substring 0 (Z.to_nat maxLen) s ++ "...").

(** [(s *service) Generate(data, size)]. *)
Definition Generate (s : service) (data : list byte) (size : Z)
  : M (list byte * option error) :=
  slog.Debug (logger s) "Starting QR code generation"
    [("data_length", VInt (blen data)); ("size", VInt size)] ;;
  if blen data =? 0 then
    slog.Warn (logger s) "QR code generation failed: empty data provided" [] ;;
    mret ([], Some (errorString "data cannot be empty"))
  else if (size <=? 0) || (2048 <? size) then
    slog.Warn (logger s) "QR code generation failed: invalid size"
      [("size", VInt size); ("min", VInt 1); ("max", VInt 2048)] ;;
    mret ([], Some (errorString "invalid size: must be between 1 and 2048"))
  else
    preview ← must (truncateString (string_of_bytes data) 50)
                   "slice bounds out of range" ;
    slog.Debug (logger s) "Encoding QR code"
      [("recovery_level", VStr "Medium"); ("data_preview", VStr preview)] ;;
    '(png, err) ← callEncode (string_of_bytes data) qrcode.Medium size ;
    match err with
    | Some e =>
        slog.Error (logger s) "Failed to encode QR code"
          [("error", VErr (Some e)); ("data_length", VInt (blen data));
           ("size", VInt size)] ;;
        mret ([], Some (wrapError "failed to encode QR code: " e))
    | None =>
        slog.Debug (logger s) "QR code generated successfully"
          [("output_size_bytes", VInt (blen png));
           ("image_dimensions", VStr (pretty size ++ "x" ++ pretty size))] ;;
        mret (png, None)
    end.

(** [NewService(logger)]: the service behind the interface. *)
Definition NewService (logger : Logger) : Service :=
  {| Service_Generate := Generate {| logger := logger |} |}.

End qr.

(** ** Package transport: the Request Handler *)

Module transport.

Record Handler : Type := {
  svc : qr.Service;
  logger : Logger;
  maxBodySize : Z
}.

Definition NewHandler (svc : qr.Service) (logger : Logger) (maxBodySize : Z)
  : Handler :=
  {| svc := svc; logger := logger; maxBodySize := maxBodySize |}.

Definition maxSize : Z := 2048.
Definition defaultSize : Z := 256.

(** [(h *Handler) Generate(w, r)]; the result is the response writer as the
    handler leaves it. *)
Definition Generate (h : Handler) (w : http.ResponseWriter)
  (r : http.Request) : M http.ResponseWriter :=
  slog.Debug (logger h) "Received QR generation request"
    [("method", VStr (http.Method r));
     ("remote_addr", VStr (http.RemoteAddr r));
     ("user_agent", VStr (http.UserAgent r));
     ("content_length", VInt (http.ContentLength r))] ;;
  if negb (String.eqb (http.Method r) http.MethodPost) then
    slog.Warn (logger h) "Method not allowed"
      [("method", VStr (http.Method r)); ("expected", VStr http.MethodPost);
       ("remote_addr", VStr (http.RemoteAddr r))] ;;
    mret (http.Error w "Method not allowed" http.StatusMethodNotAllowed)
  else
    let limited := http.MaxBytesReader w (http.Body r) (maxBodySize h) in
    slog.Debug (logger h) "Reading request body"
      [("max_size", VInt (maxBodySize h))] ;;
    '(body, err) ← io.ReadAll limited ;
    match err with
    | Some e =>
        slog.Error (logger h) "failed to read request body"
          [("error", VErr (Some e));
           ("remote_addr", VStr (http.RemoteAddr r))] ;;
        if errors.As_MaxBytesError e then
          slog.Warn (logger h) "Request body too large"
            [("max_allowed", VInt (maxBodySize h));
             ("remote_addr", VStr (http.RemoteAddr r))] ;;
          mret (http.Error w "Request body too large"
                  http.StatusRequestEntityTooLarge)
        else
          mret (http.Error w "Failed to read request body"
                  http.StatusInternalServerError)
    | None =>
        slog.Debug (logger h) "Request body read successfully"
          [("body_size", VInt (blen body))] ;;
        if blen body =? 0 then
          slog.Warn (logger h) "Empty request body received"
            [("remote_addr", VStr (http.RemoteAddr r))] ;;
          mret (http.Error w "Request body is empty" http.StatusBadRequest)
        else
          let sizeStr := url.Get (http.Query r) "size" in
          parsed ←
            (if negb (String.eqb sizeStr "") then
               slog.Debug (logger h) "Parsing size parameter"
                 [("size_str", VStr sizeStr)] ;;
               let '(parsedSize, err) := strconv.Atoi sizeStr in
               if notNil err || (parsedSize <=? 0)
                  || (maxSize <? parsedSize) then
                 slog.Warn (logger h) "Invalid size parameter"
                   [("size_str", VStr sizeStr); ("error", VErr err);
                    ("min", VInt 1); ("max", VInt maxSize);
                    ("remote_addr", VStr (http.RemoteAddr r))] ;;
                 mret (inr (http.Error w
                              "Invalid size parameter: must be between 1 and 2048"
                              http.StatusBadRequest))
               else
                 slog.Debug (logger h) "Size parameter parsed"
                   [("size", VInt parsedSize)] ;;
                 mret (inl parsedSize)
             else
               slog.Debug (logger h) "Using default size"
                 [("size", VInt defaultSize)] ;;
               mret (inl defaultSize)) ;
          match parsed with
          | inr w' => mret w'
          | inl size =>
              slog.Debug (logger h) "Calling QR generation service"
                [("data_length", VInt (blen body)); ("size", VInt size)] ;;
              emit (CallService body size) ;;
              '(png, err) ← qr.Service_Generate (svc h) body size ;
              match err with
              | Some e =>
                  slog.Error (logger h) "failed to generate QR code"
                    [("error", VErr (Some e));
                     ("data_length", VInt (blen body)); ("size", VInt size);
                     ("remote_addr", VStr (http.RemoteAddr r))] ;;
                  mret (http.Error w "Internal server error"
                          http.StatusInternalServerError)
              | None =>
                  slog.Debug (logger h) "QR code generated successfully"
                    [("png_size", VInt (blen png));
                     ("remote_addr", VStr (http.RemoteAddr r))] ;;
                  let w := http.SetHeader w "Content-Type" "image/png" in
                  let w := http.WriteHeader w http.StatusOK in
                  let '(w, err) := http.WriteBytes w png in
                  match err with
                  | Some e =>
                      slog.Error (logger h) "failed to write response"
                        [("error", VErr (Some e));
                         ("png_size", VInt (blen png));
                         ("remote_addr", VStr (http.RemoteAddr r))] ;;
                      mret w
                  | None =>
                      slog.Info (logger h)
                        "QR code request completed successfully"
                        [("data_length", VInt (blen body));
                         ("size", VInt size);
                         ("output_size", VInt (blen png));
                         ("remote_addr", VStr (http.RemoteAddr r))] ;;
                      mret w
                  end
              end
          end
    end.

(** [(h *Handler) HealthCheck(w, r)]. *)
Definition HealthCheck (h : Handler) (w : http.ResponseWriter)
  (r : http.Request) : M http.ResponseWriter :=
  slog.Debug (logger h) "Health check request received"
    [("method", VStr (http.Method r));
     ("remote_addr", VStr (http.RemoteAddr r))] ;;
  let w := http.SetHeader w "Content-Type" "application/json" in
  let w := http.WriteHeader w http.StatusOK in
  let '(w, err) := json.Encode w [("status", "ok")] in
  match err with
  | Some e =>
      slog.Error (logger h) "failed to encode health check response"
        [("error", VErr (Some e));
         ("remote_addr", VStr (http.RemoteAddr r))] ;;
      mret w
  | None => mret w
  end.

End transport.

(** ** Package logger: logging configuration *)

Module os.

(** The process environment. *)
Abbreviation Environ := (gmap string string).

(** [os.Getenv(key)]: the value of the variable, or the empty string when it
    is not set. *)
Definition Getenv (env : Environ) (key : string) : string :=
  default "" (env !! key).

End os.

Module zapcore.

(** [zapcore.Level]. *)
Inductive Level : Type :=
| DebugLevel | InfoLevel | WarnLevel | ErrorLevel
| DPanicLevel | PanicLevel | FatalLevel.

(** [Level.String()]: the lower-case name of a level. *)
Definition LevelString (l : Level) : string :=
  match l with
  | DebugLevel => "debug"
  | InfoLevel => "info"
  | WarnLevel => "warn"
  | ErrorLevel => "error"
  | DPanicLevel => "dpanic"
  | PanicLevel => "panic"
  | FatalLevel => "fatal"
  end.

Inductive LevelEncoder : Type :=
| LowercaseLevelEncoder | LowercaseColorLevelEncoder
| CapitalLevelEncoder | CapitalColorLevelEncoder.

Inductive TimeEncoder : Type :=
| EpochTimeEncoder | EpochMillisTimeEncoder | EpochNanosTimeEncoder
| ISO8601TimeEncoder | RFC3339TimeEncoder | RFC3339NanoTimeEncoder.

End zapcore.

Module zap.

(** The fields of [zapcore.EncoderConfig] the program assigns. *)
Record EncoderConfig : Type := {
  EncodeLevel : zapcore.LevelEncoder;
  EncodeTime : zapcore.TimeEncoder
}.

(** [zap.Config]: the fields the program assigns, and [others], all the
    fields it leaves as the preset has them. *)
Record Config (Others : Type) : Type := {
  Level : zapcore.Level;
  Encoder : EncoderConfig;
  others : Others
}.
Arguments Level {Others} _.
Arguments Encoder {Others} _.
Arguments others {Others} _.

(** The build options the program passes. *)
Inductive Option : Type :=
| AddCallerSkip (skip : Z)
| AddStacktrace (lvl : zapcore.Level).

End zap.

Module logger.

(** [getLogLevelFromEnv()]. *)
Definition getLogLevelFromEnv (env : os.Environ) : zapcore.Level :=
  let level := os.Getenv env "LOG_LEVEL" in
  if String.eqb level "debug" then zapcore.DebugLevel
  else if String.eqb level "info" then zapcore.InfoLevel
  else if String.eqb level "warn" then zapcore.WarnLevel
  else if String.eqb level "error" then zapcore.ErrorLevel
  else if String.eqb level "dpanic" then zapcore.DPanicLevel
  else if String.eqb level "panic" then zapcore.PanicLevel
  else if String.eqb level "fatal" then zapcore.FatalLevel
  else zapcore.InfoLevel.

Section Zap.

(** The zap library, as far as [InitLogger] uses it: the type of built
    loggers, the two preset configurations, [Config.Build] and the text
    [err.Error()] of an error. *)
Variables (Others ZapLogger : Type).
Variable NewDevelopmentConfig : zap.Config Others.
Variable NewProductionConfig : zap.Config Others.
Variable Build :
  zap.Config Others -> list zap.Option -> option ZapLogger * option error.
Variable ErrorText : error -> string.

(** A line written through a logger: the logger, the message and the string
    fields. *)
Record Line : Type := {
  via : ZapLogger;
  message : string;
  fields : list (string * string)
}.

(** The package state: the global variable [Logger] ([None] is [nil]); for
    observation, the calls of [Build], the lines written with [Info] and the
    loggers flushed with [Sync], each in order. *)
Record State : Type := {
  Logger : option ZapLogger;
  builds : list (zap.Config Others * list zap.Option);
  lines : list Line;
  syncs : list ZapLogger
}.

(** The state at program start. *)
Definition initial : State :=
  {| Logger := None; builds := []; lines := []; syncs := [] |}.

(** [InitLogger()]. *)
Definition InitLogger (env : os.Environ) (st : State)
  : Outcome unit * State :=
  let logEnv := os.Getenv env "LOG_ENV" in
  let logLevel := getLogLevelFromEnv env in
  let config :=
    if String.eqb logEnv "dev" then
      let config := NewDevelopmentConfig in
      {| zap.Level := zap.Level config;
         zap.Encoder :=
           {| zap.EncodeLevel := zapcore.CapitalColorLevelEncoder;
              zap.EncodeTime := zapcore.ISO8601TimeEncoder |};
         zap.others := zap.others config |}
    else
      let config := NewProductionConfig in
      {| zap.Level := zap.Level config;
         zap.Encoder :=
           {| zap.EncodeLevel := zap.EncodeLevel (zap.Encoder config);
              zap.EncodeTime := zapcore.ISO8601TimeEncoder |};
         zap.others := zap.others config |} in
  let config :=
    {| zap.Level := logLevel; zap.Encoder := zap.Encoder config;
       zap.others := zap.others config |} in
  let opts := [zap.AddCallerSkip 0; zap.AddStacktrace zapcore.ErrorLevel] in
  let '(built, err) := Build config opts in
  let st := {| Logger := built;
               builds := (builds st ++ [(config, opts)])%list;
               lines := lines st; syncs := syncs st |} in
  match err with
  | Some e => (Panic ("Failed to initialize logger: " ++ ErrorText e), st)
  | None =>
      match built with
      | None => (Panic "invalid memory address or nil pointer dereference", st)
      | Some lg =>
          (Ret tt,
           {| Logger := Logger st; builds := builds st;
              lines :=
                (lines st ++
                 [{| via := lg; message := "Logger initialized";
                     fields := [("LOG_ENV", logEnv);
                                ("LOG_LEVEL", zapcore.LevelString logLevel)]
                  |}])%list;
              syncs := syncs st |})
      end
  end.

(** [Sync()]. *)
Definition Sync (st : State) : State :=
  match Logger st with
  | Some lg =>
      {| Logger := Logger st; builds := builds st; lines := lines st;
         syncs := (syncs st ++ [lg])%list |}
  | None => st
  end.

End Zap.

End logger.

(** ** Sample inputs *)

(** A stand-in for the encoding engine.  Like every QR encoder it rejects
    content longer than the largest symbol can hold (version 40 holds at
    most 7089 characters, in numeric mode at the lowest recovery level);
    otherwise it answers with the eight bytes of the PNG signature followed
    by the content. *)
Definition stubEngine : qrcode.Engine := fun content level size =>
  if 7089 <? len content
  then ([], Some (errorString "content too long to encode"))
  else (([x89; x50; x4e; x47; x0d; x0a; x1a; x0a]
         ++ bytes_of_string content)%list, None).

(** The service and the handler as [main] wires them, with a body limit. *)
Definition wired (maxBodySize : Z) : transport.Handler :=
  transport.NewHandler (qr.NewService slogLogger) slogLogger maxBodySize.

(** A request whose body arrives whole. *)
Definition request (method : string) (body : string) (query : url.Values)
  : http.Request :=
  {| http.Method := method;
     http.Body := {| io.pending := bytes_of_string body; io.ending := None |};
     http.Query := query;
     http.RemoteAddr := "192.0.2.1:40000";
     http.UserAgent := "curl/8.5.0";
     http.ContentLength := len body |}.

(** A request whose body stream breaks after the bytes of [body]. *)
Definition brokenRequest (method : string) (body : string) (e : error)
  : http.Request :=
  {| http.Method := method;
     http.Body := {| io.pending := bytes_of_string body;
                     io.ending := Some e |};
     http.Query := ∅;
     http.RemoteAddr := "192.0.2.1:40000";
     http.UserAgent := "curl/8.5.0";
     http.ContentLength := len body |}.

(** The request [r] with query [q]. *)
Definition withQuery (r : http.Request) (q : url.Values) : http.Request :=
  {| http.Method := http.Method r; http.Body := http.Body r;
     http.Query := q; http.RemoteAddr := http.RemoteAddr r;
     http.UserAgent := http.UserAgent r;
     http.ContentLength := http.ContentLength r |}.

(** A response writer that has sent nothing, on a connection that reports
    [fault] on writes. *)
Definition freshWriter (fault : option error) : http.ResponseWriter :=
  {| http.header := ∅; http.sent := None; http.body := [];
     http.fault := fault |}.

(** The response a handler run produced, when it returned. *)
Definition response (o : Outcome http.ResponseWriter)
  : option http.ResponseWriter :=
  match o with
  | Ret w => Some w
  | Panic _ => None
  end.

(** The preview [truncateString(string(data), 50)] once the call has
    returned (see [truncateString_50]). *)
Definition previewOf (data : list byte) : string :=
  let s := string_of_bytes data in
  if len s <=? 50 then s else String.substring 0 50 s ++ "...".

(** ** Further observations on runs *)

(** The size the handler settles on for request [r]: the default when the
    first value of [size] is empty, the parsed value when it is a decimal
    integer in [1, 2048]. *)
Definition sizeSettled (r : http.Request) (size : Z) : Prop :=
  (url.Get (http.Query r) "size" = "" /\ size = transport.defaultSize)
  \/ (url.Get (http.Query r) "size" <> ""
      /\ strconv.Atoi (url.Get (http.Query r) "size") = (size, None)
      /\ 1 <= size <= 2048).

(** What the handler logs while it settles on [size]. *)
Definition sizeEvents (r : http.Request) (size : Z) : list Event :=
  if String.eqb (url.Get (http.Query r) "size") ""
  then [Log LevelDebug "Using default size"
          [("size", VInt transport.defaultSize)]]
  else [Log LevelDebug "Parsing size parameter"
          [("size_str", VStr (url.Get (http.Query r) "size"))];
        Log LevelDebug "Size parameter parsed" [("size", VInt size)]].

(** The messages logged at level [lvl], in order. *)
Definition logsAt (lvl : Level) (t : list Event) : list string :=
  omap (fun e => match e with
                 | Log l msg _ =>
                     match l, lvl with
                     | LevelDebug, LevelDebug | LevelInfo, LevelInfo
                     | LevelWarn, LevelWarn | LevelError, LevelError =>
                         Some msg
                     | _, _ => None
                     end
                 | _ => None
                 end) t.

(** The body limit in force for a configured maximum. *)
Definition bodyLimit (maxBodySize : Z) : Z := Z.max 0 maxBodySize.

(** A request with an arbitrary body stream. *)
Definition requestOf (method : string) (body : io.Reader)
  (query : url.Values) : http.Request :=
  {| http.Method := method; http.Body := body; http.Query := query;
     http.RemoteAddr := "192.0.2.1:40000"; http.UserAgent := "curl/8.5.0";
     http.ContentLength := -1 |}.

(** An engine that also hands back bytes when it fails. *)
Definition leakyEngine : qrcode.Engine := fun content level size =>
  (bytes_of_string "partial", Some (errorString "encoder broke")).

(** A service (test double) that fails with the given error, after logging
    it. *)
Definition failingService (e : error) : qr.Service :=
  {| qr.Service_Generate := fun data size =>
       slog.Error slogLogger "stub failure" [("error", VErr (Some e))] ;;
       mret (bytes_of_string "ignored", Some e) |}.

(** Unfolds the monad and the logging calls of a run. *)
Ltac run :=
  cbv [outcome trace mbind M_bind mret M_ret emit panic must callEncode
       slog.Debug slog.Info slog.Warn slog.Error io.ReadAll].

(** * Properties *)

(** ** Strings and byte slices *)

Lemma length_string_append (s1 s2 : string) :
  String.length (s1 ++ s2) = (String.length s1 + String.length s2)%nat.
Proof.
  induction s1 as [|c s1 IH]; simpl; [reflexivity | now rewrite IH].
Qed.

Lemma length_substring_prefix (n : nat) (s : string) :
  (n <= String.length s)%nat -> String.length (String.substring 0 n s) = n.
Proof.
  revert s; induction n as [|n IH]; intros [|c s] Hn; simpl in *;
    try reflexivity; try lia.
  rewrite IH; [reflexivity | lia].
Qed.

Lemma length_string_of_bytes (data : list byte) :
  String.length (string_of_bytes data) = length data.
Proof.
  induction data as [|b data IH]; simpl; [reflexivity | now rewrite <- IH].
Qed.

Lemma len_string_of_bytes (data : list byte) :
  len (string_of_bytes data) = blen data.
Proof. unfold len, blen. now rewrite length_string_of_bytes. Qed.

Lemma blen_zero (data : list byte) : (blen data =? 0) = true <-> data = [].
Proof.
  unfold blen. rewrite Z.eqb_eq. destruct data; simpl; split;
    intros; try reflexivity; try discriminate; lia.
Qed.

Lemma blen_nonzero (data : list byte) : data <> [] -> (blen data =? 0) = false.
Proof.
  intros Hd. destruct (blen data =? 0) eqn:E; [|reflexivity].
  now apply blen_zero in E.
Qed.

(** ** truncateString *)

Lemma truncateString_50 (s : string) :
  qr.truncateString s 50 =
  Some (if len s <=? 50 then s else String.substring 0 50 s ++ "...").
Proof. unfold qr.truncateString. now destruct (len s <=? 50). Qed.

Lemma truncateString_total (s : string) (maxLen : Z) :
  0 <= maxLen -> is_Some (qr.truncateString s maxLen).
Proof.
  intros H. unfold qr.truncateString.
  destruct (len s <=? maxLen); [eauto|].
  destruct (maxLen <? 0) eqn:E; [lia | eauto].
Qed.

Lemma previewOf_short (data : list byte) :
  blen data <= 50 -> previewOf data = string_of_bytes data.
Proof.
  intros H. unfold previewOf. rewrite len_string_of_bytes.
  destruct (blen data <=? 50) eqn:E; [reflexivity | lia].
Qed.

Lemma previewOf_long (data : list byte) :
  50 < blen data ->
  previewOf data = String.substring 0 50 (string_of_bytes data) ++ "...".
Proof.
  intros H. unfold previewOf. rewrite len_string_of_bytes.
  destruct (blen data <=? 50) eqn:E; [lia | reflexivity].
Qed.

Lemma len_previewOf_long (data : list byte) :
  50 < blen data -> len (previewOf data) = 53.
Proof.
  intros H. rewrite previewOf_long by assumption. unfold len.
  rewrite length_string_append, length_substring_prefix; [reflexivity|].
  rewrite length_string_of_bytes. unfold blen in H. lia.
Qed.

(** ** The Generation Service, branch by branch *)

Lemma size_out_of_range (size : Z) :
  size <= 0 \/ 2048 < size -> (size <=? 0) || (2048 <? size) = true.
Proof. intros H. apply orb_true_iff. lia. Qed.

Lemma size_in_range (size : Z) :
  1 <= size <= 2048 -> (size <=? 0) || (2048 <? size) = false.
Proof. intros H. apply orb_false_iff. lia. Qed.

Lemma Generate_empty (s : qr.service) (size : Z) (eng : qrcode.Engine) :
  qr.Generate s [] size eng =
  (Ret ([], Some (errorString "data cannot be empty")),
   [Log LevelDebug "Starting QR code generation"
      [("data_length", VInt 0); ("size", VInt size)];
    Log LevelWarn "QR code generation failed: empty data provided" []]).
Proof. reflexivity. Qed.

Lemma Generate_bad_size (s : qr.service) (data : list byte) (size : Z)
  (eng : qrcode.Engine) :
  data <> [] -> size <= 0 \/ 2048 < size ->
  qr.Generate s data size eng =
  (Ret ([], Some (errorString "invalid size: must be between 1 and 2048")),
   [Log LevelDebug "Starting QR code generation"
      [("data_length", VInt (blen data)); ("size", VInt size)];
    Log LevelWarn "QR code generation failed: invalid size"
      [("size", VInt size); ("min", VInt 1); ("max", VInt 2048)]]).
Proof.
  intros Hd Hs. unfold qr.Generate. run.
  rewrite (blen_nonzero data Hd), (size_out_of_range size Hs). reflexivity.
Qed.

Lemma Generate_valid (s : qr.service) (data : list byte) (size : Z)
  (eng : qrcode.Engine) :
  data <> [] -> 1 <= size <= 2048 ->
  qr.Generate s data size eng =
  let content := string_of_bytes data in
  let before :=
    [Log LevelDebug "Starting QR code generation"
       [("data_length", VInt (blen data)); ("size", VInt size)];
     Log LevelDebug "Encoding QR code"
       [("recovery_level", VStr "Medium");
        ("data_preview", VStr (previewOf data))];
     CallEncode content qrcode.Medium size] in
  match eng content qrcode.Medium size with
  | (png, None) =>
      (Ret (png, None),
       (before ++
        [Log LevelDebug "QR code generated successfully"
           [("output_size_bytes", VInt (blen png));
            ("image_dimensions", VStr (pretty size ++ "x" ++ pretty size))]])
       %list)
  | (_, Some e) =>
      (Ret ([], Some (wrapError "failed to encode QR code: " e)),
       (before ++
        [Log LevelError "Failed to encode QR code"
           [("error", VErr (Some e)); ("data_length", VInt (blen data));
            ("size", VInt size)]])%list)
  end.
Proof.
  intros Hd Hs. unfold qr.Generate. run.
  rewrite (blen_nonzero data Hd), (size_in_range size Hs), truncateString_50.
  fold (previewOf data).
  destruct (eng (string_of_bytes data) qrcode.Medium size) as [png [e|]];
    reflexivity.
Qed.

(** ** Claims about the Generation Service *)

(** C4. For the empty payload and every size, [Generate] returns the plain
    (unwrapped) invalid-input error with message "data cannot be empty", and
    the run contains no call of the encoding engine. *)
Theorem C4_empty_payload_rejected (s : qr.service) (size : Z)
  (eng : qrcode.Engine) :
  outcome (qr.Generate s [] size) eng =
    Ret ([], Some (errorString "data cannot be empty"))
  /\ encodeCalls (trace (qr.Generate s [] size) eng) = [].
Proof. unfold outcome, trace. rewrite Generate_empty. split; reflexivity. Qed.

(** C3, as stated, fails: for the empty payload with size 0 the emptiness
    check runs first, and the error is "data cannot be empty", not the
    invalid-size error. *)
Lemma C3_counterexample :
  let data : list byte := [] in
  let size := 0 in
  (size <= 0 \/ 2048 < size)
  /\ outcome (qr.Generate {| qr.logger := slogLogger |} data size) stubEngine
     = Ret ([], Some (errorString "data cannot be empty"))
  /\ outcome (qr.Generate {| qr.logger := slogLogger |} data size) stubEngine
     <> Ret ([], Some (errorString "invalid size: must be between 1 and 2048")).
Proof.
  cbv zeta. split; [left; lia|]. split; [reflexivity|].
  unfold outcome. rewrite Generate_empty. simpl. intros H. discriminate H.
Qed.

(** C3 (amended). For every size that is at most 0 or above 2048 and every
    payload, [Generate] returns a plain invalid-input error and the run
    contains no call of the encoding engine; the message is "invalid size:
    must be between 1 and 2048" when the payload is non-empty, and "data
    cannot be empty" for the empty payload, whose check comes first. *)
Theorem C3_invalid_size_rejected (s : qr.service) (data : list byte)
  (size : Z) (eng : qrcode.Engine) :
  size <= 0 \/ 2048 < size ->
  outcome (qr.Generate s data size) eng =
    Ret ([], Some (errorString
                     match data with
                     | [] => "data cannot be empty"
                     | _ :: _ => "invalid size: must be between 1 and 2048"
                     end))
  /\ encodeCalls (trace (qr.Generate s data size) eng) = [].
Proof.
  intros Hs. unfold outcome, trace. destruct data as [|b data].
  - rewrite Generate_empty. split; reflexivity.
  - rewrite Generate_bad_size by (assumption || discriminate).
    split; reflexivity.
Qed.

(** The amended C3 on the payload https://example.com at size 5000. *)
Lemma C3_witness :
  (5000 <= 0 \/ 2048 < 5000)
  /\ outcome (qr.Generate {| qr.logger := slogLogger |}
                (bytes_of_string "https://example.com") 5000) stubEngine
     = Ret ([], Some (errorString "invalid size: must be between 1 and 2048")).
Proof.
  split; [right; lia|].
  apply (C3_invalid_size_rejected {| qr.logger := slogLogger |}
           (bytes_of_string "https://example.com") 5000 stubEngine).
  right; lia.
Defined.

(** C1, as stated, fails: the engine can fail on a non-empty payload with a
    size in range (here a payload of 7090 bytes, more than any QR symbol
    holds), and [Generate] then returns an error. *)
Lemma C1_counterexample :
  let data := repeat "x"%byte (Z.to_nat 7090) in
  data <> []
  /\ 1 <= 256 <= 2048
  /\ outcome (qr.Generate {| qr.logger := slogLogger |} data 256) stubEngine
     = Ret ([], Some (wrapError "failed to encode QR code: "
                        (errorString "content too long to encode"))).
Proof.
  cbv zeta. split; [discriminate|]. split; [lia|]. vm_compute. reflexivity.
Qed.

(** C1 (amended). For every non-empty payload and every size in [1, 2048],
    [Generate] calls the encoding engine exactly once, with the payload as a
    string, recovery level Medium and the requested size.  If the engine
    succeeds, [Generate] returns the engine's bytes verbatim with no error;
    if the engine fails, [Generate] returns no bytes and an error that wraps
    the engine's. *)
Theorem C1_generate_valid_input (s : qr.service) (data : list byte)
  (size : Z) (eng : qrcode.Engine) :
  data <> [] -> 1 <= size <= 2048 ->
  encodeCalls (trace (qr.Generate s data size) eng)
    = [(string_of_bytes data, qrcode.Medium, size)]
  /\ outcome (qr.Generate s data size) eng =
     match eng (string_of_bytes data) qrcode.Medium size with
     | (png, None) => Ret (png, None)
     | (_, Some e) =>
         Ret ([], Some (wrapError "failed to encode QR code: " e))
     end.
Proof.
  intros Hd Hs. unfold outcome, trace. rewrite Generate_valid by assumption.
  cbv zeta.
  destruct (eng (string_of_bytes data) qrcode.Medium size) as [png [e|]];
    split; reflexivity.
Qed.

(** The amended C1 on the payload https://example.com at size 128. *)
Lemma C1_witness :
  bytes_of_string "https://example.com" <> []
  /\ 1 <= 128 <= 2048
  /\ outcome (qr.Generate {| qr.logger := slogLogger |}
                (bytes_of_string "https://example.com") 128) stubEngine
     = Ret (([x89; x50; x4e; x47; x0d; x0a; x1a; x0a]
             ++ bytes_of_string "https://example.com")%list, None).
Proof.
  split; [discriminate|]. split; [lia|].
  apply (C1_generate_valid_input {| qr.logger := slogLogger |}
           (bytes_of_string "https://example.com") 128 stubEngine).
  - discriminate.
  - lia.
Defined.

(** The events of a [Generate] run that carry a payload preview. *)
Lemma Generate_previews (s : qr.service) (data : list byte) (size : Z)
  (eng : qrcode.Engine) :
  logged "data_preview" (trace (qr.Generate s data size) eng) =
  if (blen data =? 0) || ((size <=? 0) || (2048 <? size))
  then []
  else [VStr (previewOf data)].
Proof.
  unfold trace. destruct data as [|b data].
  - rewrite Generate_empty. reflexivity.
  - rewrite (blen_nonzero (b :: data)) by discriminate.
    destruct ((size <=? 0) || (2048 <? size)) eqn:E.
    + apply orb_true_iff in E.
      rewrite Generate_bad_size by (discriminate || lia). reflexivity.
    + apply orb_false_iff in E.
      rewrite Generate_valid by (discriminate || lia). cbv zeta.
      destruct (eng (string_of_bytes (b :: data)) qrcode.Medium size)
        as [png [e|]]; reflexivity.
Qed.

(** C8, as stated, fails: for a payload of 51 bytes the preview that is
    logged is the first 50 bytes followed by "...", 53 bytes long. *)
Lemma C8_counterexample :
  let data := repeat "a"%byte 51 in
  exists p : string,
    logged "data_preview"
      (trace (qr.Generate {| qr.logger := slogLogger |} data 256) stubEngine)
    = [VStr p]
    /\ len p = 53
    /\ ~ len p <= 50.
Proof.
  cbv zeta. eexists. split; [vm_compute; reflexivity|].
  split; [reflexivity | intros H; vm_compute in H; now apply H].
Qed.

(** A payload of 53 bytes that ends in three dots is its own preview: the
    bound 53 in the amended claim cannot be lowered. *)
Lemma preview_can_equal_payload :
  let data := (repeat "a"%byte 50 ++ repeat "."%byte 3)%list in
  blen data = 53
  /\ qr.truncateString (string_of_bytes data) 50 = Some (string_of_bytes data).
Proof. cbv zeta. split; vm_compute; reflexivity. Qed.

(** C8 (amended). For every payload, every preview logged by [Generate] is
    [truncateString(string(payload), 50)], which never panics: the payload
    itself when it has at most 50 bytes, and otherwise its first 50 bytes
    followed by the marker "...", 53 bytes in all.  So the preview is never
    longer than 53 bytes, and for a payload longer than 53 bytes it is
    shorter than the payload, hence never the full payload. *)
Theorem C8_preview_capped (s : qr.service) (data : list byte) (size : Z)
  (eng : qrcode.Engine) :
  exists p : string,
    qr.truncateString (string_of_bytes data) 50 = Some p
    /\ Forall (fun v => v = VStr p)
         (logged "data_preview" (trace (qr.Generate s data size) eng))
    /\ len p <= 53
    /\ (blen data <= 50 -> p = string_of_bytes data)
    /\ (50 < blen data ->
        p = String.substring 0 50 (string_of_bytes data) ++ "..."
        /\ len p = 53)
    /\ (53 < blen data -> len p < blen data).
Proof.
  exists (previewOf data). split; [apply truncateString_50|].
  split.
  { rewrite Generate_previews.
    destruct ((blen data =? 0) || ((size <=? 0) || (2048 <? size)));
      repeat constructor. }
  assert (Hlong : 50 < blen data -> len (previewOf data) = 53)
    by apply len_previewOf_long.
  assert (Hshort : blen data <= 50 -> previewOf data = string_of_bytes data)
    by apply previewOf_short.
  split.
  { destruct (Z_le_gt_dec (blen data) 50) as [H|H].
    - rewrite Hshort, len_string_of_bytes by assumption. lia.
    - rewrite Hlong by lia. lia. }
  split; [assumption|].
  split.
  { intros H. split; [now apply previewOf_long | now apply Hlong]. }
  intros H. rewrite Hlong by lia. lia.
Qed.

(** The amended C8 on the payload https://example.com. *)
Lemma C8_witness :
  exists p : string,
    qr.truncateString
      (string_of_bytes (bytes_of_string "https://example.com")) 50 = Some p
    /\ len p <= 53.
Proof.
  destruct (C8_preview_capped {| qr.logger := slogLogger |}
              (bytes_of_string "https://example.com") 128 stubEngine)
    as (p & Hp & _ & Hlen & _).
  exists p. split; assumption.
Defined.

(** ** Library calls *)

Lemma MaxBytesReader_within (w : http.ResponseWriter) (rd : io.Reader)
  (n : Z) :
  blen (io.pending rd) <= Z.max 0 n -> http.MaxBytesReader w rd n = rd.
Proof.
  intros H. unfold http.MaxBytesReader.
  destruct (n <? 0) eqn:E; destruct (_ <? blen _) eqn:E2;
    try reflexivity; lia.
Qed.

Lemma MaxBytesReader_beyond (w : http.ResponseWriter) (rd : io.Reader)
  (n : Z) :
  Z.max 0 n < blen (io.pending rd) ->
  http.MaxBytesReader w rd n =
  {| io.pending := take (Z.to_nat (Z.max 0 n)) (io.pending rd);
     io.ending := Some (MaxBytesError (Z.max 0 n)) |}.
Proof.
  intros H. unfold http.MaxBytesReader.
  destruct (n <? 0) eqn:E; destruct (_ <? blen _) eqn:E2; try lia.
  - replace (Z.max 0 n) with 0 by lia. reflexivity.
  - replace (Z.max 0 n) with n by lia. reflexivity.
Qed.

(** [http.Error] on a writer that has sent nothing: the status is the given
    code, the reply is the message and a newline as plain text. *)
Lemma Error_fresh (fault : option error) (msg : string) (code : Z) :
  http.Code (http.Error (freshWriter fault) msg code) = Some code
  /\ http.SentHeader (http.Error (freshWriter fault) msg code) "Content-Type"
     = Some "text/plain; charset=utf-8"
  /\ http.body (http.Error (freshWriter fault) msg code)
     = bytes_of_string (msg ++ http.newline).
Proof. repeat split; reflexivity. Qed.

Example Atoi_boundaries :
  strconv.Atoi "1" = (1, None) /\ strconv.Atoi "2048" = (2048, None)
  /\ strconv.Atoi "0" = (0, None) /\ strconv.Atoi "2049" = (2049, None)
  /\ notNil (snd (strconv.Atoi "abc")) = true
  /\ notNil (snd (strconv.Atoi "")) = true.
Proof. repeat split; reflexivity. Qed.

Lemma Get_absent (q : url.Values) (key : string) :
  q !! key = None -> url.Get q key = "".
Proof. intros H. unfold url.Get. now rewrite H. Qed.

Lemma Get_empty_first (q : url.Values) (key : string) (rest : list string) :
  q !! key = Some ("" :: rest) -> url.Get q key = "".
Proof. intros H. unfold url.Get. now rewrite H. Qed.

(** ** The Request Handler, branch by branch *)

Lemma Handler_not_post (h : transport.Handler) (w : http.ResponseWriter)
  (r : http.Request) (eng : qrcode.Engine) :
  http.Method r <> http.MethodPost ->
  transport.Generate h w r eng =
  (Ret (http.Error w "Method not allowed" http.StatusMethodNotAllowed),
   [Log LevelDebug "Received QR generation request"
      [("method", VStr (http.Method r));
       ("remote_addr", VStr (http.RemoteAddr r));
       ("user_agent", VStr (http.UserAgent r));
       ("content_length", VInt (http.ContentLength r))];
    Log LevelWarn "Method not allowed"
      [("method", VStr (http.Method r)); ("expected", VStr http.MethodPost);
       ("remote_addr", VStr (http.RemoteAddr r))]]).
Proof.
  intros Hm. apply String.eqb_neq in Hm.
  unfold transport.Generate. rewrite Hm. reflexivity.
Qed.

Lemma Handler_too_large (h : transport.Handler) (w : http.ResponseWriter)
  (r : http.Request) (eng : qrcode.Engine) :
  http.Method r = http.MethodPost ->
  Z.max 0 (transport.maxBodySize h) < blen (io.pending (http.Body r)) ->
  transport.Generate h w r eng =
  let limit := Z.max 0 (transport.maxBodySize h) in
  (Ret (http.Error w "Request body too large"
          http.StatusRequestEntityTooLarge),
   [Log LevelDebug "Received QR generation request"
      [("method", VStr (http.Method r));
       ("remote_addr", VStr (http.RemoteAddr r));
       ("user_agent", VStr (http.UserAgent r));
       ("content_length", VInt (http.ContentLength r))];
    Log LevelDebug "Reading request body"
      [("max_size", VInt (transport.maxBodySize h))];
    ReadBody (take (Z.to_nat limit) (io.pending (http.Body r)))
      (Some (MaxBytesError limit));
    Log LevelError "failed to read request body"
      [("error", VErr (Some (MaxBytesError limit)));
       ("remote_addr", VStr (http.RemoteAddr r))];
    Log LevelWarn "Request body too large"
      [("max_allowed", VInt (transport.maxBodySize h));
       ("remote_addr", VStr (http.RemoteAddr r))]]).
Proof.
  intros Hm Hl. unfold transport.Generate.
  rewrite MaxBytesReader_beyond by assumption.
  rewrite (proj2 (String.eqb_eq _ _) Hm). reflexivity.
Qed.

Lemma Handler_read_failed (h : transport.Handler) (w : http.ResponseWriter)
  (r : http.Request) (eng : qrcode.Engine) (e : error) :
  http.Method r = http.MethodPost ->
  blen (io.pending (http.Body r)) <= Z.max 0 (transport.maxBodySize h) ->
  io.ending (http.Body r) = Some e ->
  transport.Generate h w r eng =
  let before :=
    [Log LevelDebug "Received QR generation request"
       [("method", VStr (http.Method r));
        ("remote_addr", VStr (http.RemoteAddr r));
        ("user_agent", VStr (http.UserAgent r));
        ("content_length", VInt (http.ContentLength r))];
     Log LevelDebug "Reading request body"
       [("max_size", VInt (transport.maxBodySize h))];
     ReadBody (io.pending (http.Body r)) (Some e);
     Log LevelError "failed to read request body"
       [("error", VErr (Some e));
        ("remote_addr", VStr (http.RemoteAddr r))]] in
  if errors.As_MaxBytesError e
  then
    (Ret (http.Error w "Request body too large"
            http.StatusRequestEntityTooLarge),
     (before ++
      [Log LevelWarn "Request body too large"
         [("max_allowed", VInt (transport.maxBodySize h));
          ("remote_addr", VStr (http.RemoteAddr r))]])%list)
  else
    (Ret (http.Error w "Failed to read request body"
            http.StatusInternalServerError), before).
Proof.
  intros Hm Hl He. unfold transport.Generate.
  rewrite MaxBytesReader_within by assumption.
  rewrite (proj2 (String.eqb_eq _ _) Hm). run. rewrite He. cbv zeta.
  destruct (errors.As_MaxBytesError e); reflexivity.
Qed.

Lemma Handler_empty_body (h : transport.Handler) (w : http.ResponseWriter)
  (r : http.Request) (eng : qrcode.Engine) :
  http.Method r = http.MethodPost ->
  http.Body r = {| io.pending := []; io.ending := None |} ->
  transport.Generate h w r eng =
  (Ret (http.Error w "Request body is empty" http.StatusBadRequest),
   [Log LevelDebug "Received QR generation request"
      [("method", VStr (http.Method r));
       ("remote_addr", VStr (http.RemoteAddr r));
       ("user_agent", VStr (http.UserAgent r));
       ("content_length", VInt (http.ContentLength r))];
    Log LevelDebug "Reading request body"
      [("max_size", VInt (transport.maxBodySize h))];
    ReadBody [] None;
    Log LevelDebug "Request body read successfully" [("body_size", VInt 0)];
    Log LevelWarn "Empty request body received"
      [("remote_addr", VStr (http.RemoteAddr r))]]).
Proof.
  intros Hm Hb. unfold transport.Generate.
  rewrite MaxBytesReader_within by (rewrite Hb; unfold blen; simpl; lia).
  rewrite (proj2 (String.eqb_eq _ _) Hm), Hb. reflexivity.
Qed.

Lemma Handler_bad_size (h : transport.Handler) (w : http.ResponseWriter)
  (r : http.Request) (eng : qrcode.Engine) (data : list byte) (n : Z)
  (err : option error) :
  http.Method r = http.MethodPost ->
  http.Body r = {| io.pending := data; io.ending := None |} ->
  data <> [] ->
  blen data <= Z.max 0 (transport.maxBodySize h) ->
  url.Get (http.Query r) "size" <> "" ->
  strconv.Atoi (url.Get (http.Query r) "size") = (n, err) ->
  err <> None \/ n <= 0 \/ 2048 < n ->
  transport.Generate h w r eng =
  (Ret (http.Error w "Invalid size parameter: must be between 1 and 2048"
          http.StatusBadRequest),
   [Log LevelDebug "Received QR generation request"
      [("method", VStr (http.Method r));
       ("remote_addr", VStr (http.RemoteAddr r));
       ("user_agent", VStr (http.UserAgent r));
       ("content_length", VInt (http.ContentLength r))];
    Log LevelDebug "Reading request body"
      [("max_size", VInt (transport.maxBodySize h))];
    ReadBody data None;
    Log LevelDebug "Request body read successfully"
      [("body_size", VInt (blen data))];
    Log LevelDebug "Parsing size parameter"
      [("size_str", VStr (url.Get (http.Query r) "size"))];
    Log LevelWarn "Invalid size parameter"
      [("size_str", VStr (url.Get (http.Query r) "size"));
       ("error", VErr err); ("min", VInt 1); ("max", VInt 2048);
       ("remote_addr", VStr (http.RemoteAddr r))]]).
Proof.
  intros Hm Hb Hd Hl Hq Ha Hbad. unfold transport.Generate.
  rewrite MaxBytesReader_within by (rewrite Hb; assumption).
  rewrite (proj2 (String.eqb_eq _ _) Hm), Hb. run. cbn [io.pending io.ending].
  rewrite (blen_nonzero data Hd), (proj2 (String.eqb_neq _ _) Hq), Ha.
  cbn [negb].
  assert (Hc : notNil err || (n <=? 0) || (transport.maxSize <? n) = true).
  { unfold transport.maxSize.
    destruct err as [e|]; [reflexivity|]. cbn [notNil orb].
    apply orb_true_iff.
    destruct Hbad as [H|H]; [congruence | lia]. }
  rewrite Hc. reflexivity.
Qed.

(** The handler of [main] on a request it delegates: the service and the
    engine are each called once, with the body and the settled size. *)
Lemma wired_delegates (maxBody : Z) (fault : option error) (r : http.Request)
  (eng : qrcode.Engine) (data : list byte) (size : Z) :
  http.Method r = http.MethodPost ->
  http.Body r = {| io.pending := data; io.ending := None |} ->
  data <> [] ->
  blen data <= Z.max 0 maxBody ->
  (url.Get (http.Query r) "size" = "" /\ size = transport.defaultSize)
  \/ (url.Get (http.Query r) "size" <> ""
      /\ strconv.Atoi (url.Get (http.Query r) "size") = (size, None)
      /\ 1 <= size <= 2048) ->
  serviceCalls
    (trace (transport.Generate (wired maxBody) (freshWriter fault) r) eng)
    = [(data, size)]
  /\ encodeCalls
       (trace (transport.Generate (wired maxBody) (freshWriter fault) r) eng)
     = [(string_of_bytes data, qrcode.Medium, size)]
  /\ exists w' : http.ResponseWriter,
       outcome (transport.Generate (wired maxBody) (freshWriter fault) r) eng
       = Ret w'
       /\ match eng (string_of_bytes data) qrcode.Medium size with
          | (png, None) =>
              http.Code w' = Some http.StatusOK
              /\ http.SentHeader w' "Content-Type" = Some "image/png"
              /\ http.body w' = png
          | (_, Some _) =>
              http.Code w' = Some http.StatusInternalServerError
          end.
Proof.
  intros Hm Hb Hd Hl Hsize.
  assert (Hrange : 1 <= size <= 2048).
  { destruct Hsize as [[_ ->]|(_ & _ & H)];
      [unfold transport.defaultSize; lia | exact H]. }
  unfold transport.Generate.
  rewrite MaxBytesReader_within by (rewrite Hb; assumption).
  rewrite (proj2 (String.eqb_eq _ _) Hm), Hb. run. cbn [io.pending io.ending].
  rewrite (blen_nonzero data Hd).
  destruct Hsize as [[Hq ->]|(Hq & Ha & _)].
  - rewrite Hq. cbn [String.eqb negb wired transport.svc transport.NewHandler
                     qr.NewService qr.Service_Generate].
    rewrite Generate_valid by assumption. cbv zeta.
    destruct (eng (string_of_bytes data) qrcode.Medium transport.defaultSize)
      as [png [e|]]; [|destruct fault as [e|]];
      (split; [reflexivity|]; split; [reflexivity|]); eexists;
      (split; [reflexivity|]); repeat split; reflexivity.
  - rewrite (proj2 (String.eqb_neq _ _) Hq), Ha. cbn [negb notNil orb].
    replace ((size <=? 0) || (transport.maxSize <? size)) with false
      by (symmetry; apply orb_false_iff; unfold transport.maxSize; lia).
    cbn [wired transport.svc transport.NewHandler
         qr.NewService qr.Service_Generate].
    rewrite Generate_valid by assumption. cbv zeta.
    destruct (eng (string_of_bytes data) qrcode.Medium size)
      as [png [e|]]; [|destruct fault as [e|]];
      (split; [reflexivity|]); (split; [reflexivity|]); eexists;
      (split; [reflexivity|]); repeat split; reflexivity.
Qed.

(** Whatever the request, the handler of [main] passes only sizes in
    [1, 2048] to the service and to the engine. *)
Lemma wired_sizes_in_range (maxBody : Z) (fault : option error)
  (r : http.Request) (eng : qrcode.Engine) :
  Forall (fun c => 1 <= c.2 <= 2048)
    (serviceCalls
       (trace (transport.Generate (wired maxBody) (freshWriter fault) r) eng))
  /\ Forall (fun c => 1 <= c.2 <= 2048)
       (encodeCalls
          (trace (transport.Generate (wired maxBody) (freshWriter fault) r)
             eng)).
Proof.
  destruct (string_dec (http.Method r) http.MethodPost) as [Hm|Hm].
  2: { unfold trace. rewrite Handler_not_post by assumption.
       split; constructor. }
  destruct (Z_lt_le_dec (Z.max 0 (transport.maxBodySize (wired maxBody)))
              (blen (io.pending (http.Body r)))) as [Hl|Hl].
  { unfold trace. rewrite Handler_too_large by assumption.
    split; constructor. }
  destruct (http.Body r) as [data [e|]] eqn:Hb.
  { unfold trace.
    rewrite (Handler_read_failed _ _ _ _ e) by (rewrite ?Hb; trivial).
    cbv zeta. destruct (errors.As_MaxBytesError e); split; constructor. }
  cbn [io.pending] in Hl.
  destruct data as [|b data].
  { unfold trace. rewrite Handler_empty_body by assumption.
    split; constructor. }
  assert (Hd : b :: data <> []) by discriminate.
  assert (Hok : forall size : Z,
             (url.Get (http.Query r) "size" = ""
              /\ size = transport.defaultSize)
             \/ (url.Get (http.Query r) "size" <> ""
                 /\ strconv.Atoi (url.Get (http.Query r) "size")
                    = (size, None)
                 /\ 1 <= size <= 2048) ->
             1 <= size <= 2048).
  { intros size [[_ ->]|(_ & _ & H)];
      [unfold transport.defaultSize; lia | exact H]. }
  assert (Hgo : forall size : Z,
             (url.Get (http.Query r) "size" = ""
              /\ size = transport.defaultSize)
             \/ (url.Get (http.Query r) "size" <> ""
                 /\ strconv.Atoi (url.Get (http.Query r) "size")
                    = (size, None)
                 /\ 1 <= size <= 2048) ->
             Forall (fun c => 1 <= c.2 <= 2048)
               (serviceCalls
                  (trace (transport.Generate (wired maxBody)
                            (freshWriter fault) r) eng))
             /\ Forall (fun c => 1 <= c.2 <= 2048)
                  (encodeCalls
                     (trace (transport.Generate (wired maxBody)
                               (freshWriter fault) r) eng))).
  { intros size Hsize.
    destruct (wired_delegates maxBody fault r eng (b :: data) size
                Hm Hb Hd Hl Hsize) as (-> & -> & _).
    split; repeat constructor; cbn [snd]; apply (Hok size Hsize). }
  destruct (string_dec (url.Get (http.Query r) "size") "") as [Hq|Hq].
  { apply (Hgo transport.defaultSize). left. split; trivial. }
  destruct (strconv.Atoi (url.Get (http.Query r) "size")) as [n err] eqn:Ha.
  destruct err as [e|].
  { unfold trace.
    rewrite (Handler_bad_size _ _ _ _ (b :: data) n (Some e))
      by (trivial || (left; discriminate)).
    split; constructor. }
  destruct (Z_le_gt_dec n 0) as [Hn|Hn].
  { unfold trace.
    rewrite (Handler_bad_size _ _ _ _ (b :: data) n None)
      by (trivial || (right; left; exact Hn)).
    split; constructor. }
  destruct (Z_lt_le_dec 2048 n) as [Hn'|Hn'].
  { unfold trace.
    rewrite (Handler_bad_size _ _ _ _ (b :: data) n None)
      by (trivial || (right; right; exact Hn')).
    split; constructor. }
  apply (Hgo n). right. repeat split; trivial; lia.
Qed.

(** ** Claims about the Request Handler *)

(** C6. For every request to /generate whose method is not POST, the handler
    answers with status 405, and the run contains no read of the request
    body, no call of the service and no call of the engine. *)
Theorem C6_non_post_rejected (h : transport.Handler) (fault : option error)
  (r : http.Request) (eng : qrcode.Engine) :
  http.Method r <> http.MethodPost ->
  exists w' : http.ResponseWriter,
    outcome (transport.Generate h (freshWriter fault) r) eng = Ret w'
    /\ http.Code w' = Some 405
    /\ bodyReads (trace (transport.Generate h (freshWriter fault) r) eng) = []
    /\ serviceCalls (trace (transport.Generate h (freshWriter fault) r) eng)
       = []
    /\ encodeCalls (trace (transport.Generate h (freshWriter fault) r) eng)
       = [].
Proof.
  intros Hm. unfold outcome, trace. rewrite Handler_not_post by assumption.
  eexists. repeat split; reflexivity.
Qed.

(** C6 on GET /generate. *)
Lemma C6_witness :
  http.Method (request "GET" "https://example.com" ∅) <> http.MethodPost
  /\ exists w' : http.ResponseWriter,
       outcome (transport.Generate (wired 1048576) (freshWriter None)
                  (request "GET" "https://example.com" ∅)) stubEngine
       = Ret w'
       /\ http.Code w' = Some 405.
Proof.
  split; [discriminate|].
  destruct (C6_non_post_rejected (wired 1048576) None
              (request "GET" "https://example.com" ∅) stubEngine)
    as (w' & Hw & Hc & _); [discriminate|].
  exists w'. split; assumption.
Defined.

(** C5. For every POST request to /generate whose body is longer than the
    body limit, the handler answers with status 413 and the run contains no
    call of the service (nor of the engine); when the body is within the
    limit but reading it fails with an error that is not a size-exceeded
    error, the handler answers with status 500, again without calling the
    service.  The limit is the configured maximum body size, a negative
    configured value counting as 0, as [http.MaxBytesReader] has it. *)
Theorem C5_body_limit (h : transport.Handler) (fault : option error)
  (r : http.Request) (eng : qrcode.Engine) :
  http.Method r = http.MethodPost ->
  (Z.max 0 (transport.maxBodySize h) < blen (io.pending (http.Body r)) ->
   exists w' : http.ResponseWriter,
     outcome (transport.Generate h (freshWriter fault) r) eng = Ret w'
     /\ http.Code w' = Some 413
     /\ serviceCalls (trace (transport.Generate h (freshWriter fault) r) eng)
        = []
     /\ encodeCalls (trace (transport.Generate h (freshWriter fault) r) eng)
        = [])
  /\ (forall e : error,
        blen (io.pending (http.Body r)) <= Z.max 0 (transport.maxBodySize h) ->
        io.ending (http.Body r) = Some e ->
        errors.As_MaxBytesError e = false ->
        exists w' : http.ResponseWriter,
          outcome (transport.Generate h (freshWriter fault) r) eng = Ret w'
          /\ http.Code w' = Some 500
          /\ serviceCalls
               (trace (transport.Generate h (freshWriter fault) r) eng) = []
          /\ encodeCalls
               (trace (transport.Generate h (freshWriter fault) r) eng) = []).
Proof.
  intros Hm. split.
  - intros Hl. unfold outcome, trace.
    rewrite Handler_too_large by assumption.
    eexists. repeat split; reflexivity.
  - intros e Hl He Has. unfold outcome, trace.
    rewrite (Handler_read_failed h _ r eng e) by assumption.
    cbv zeta. rewrite Has. eexists. repeat split; reflexivity.
Qed.

(** C5 on a 19-byte body against a limit of 16 bytes, and on a body
    stream that breaks within the limit. *)
Lemma C5_witness :
  http.Method (request "POST" "https://example.com" ∅) = http.MethodPost
  /\ Z.max 0 (transport.maxBodySize (wired 16))
     < blen (io.pending (http.Body (request "POST" "https://example.com" ∅)))
  /\ (exists w' : http.ResponseWriter,
        outcome (transport.Generate (wired 16) (freshWriter None)
                   (request "POST" "https://example.com" ∅)) stubEngine
        = Ret w'
        /\ http.Code w' = Some 413)
  /\ (exists w' : http.ResponseWriter,
        outcome (transport.Generate (wired 16) (freshWriter None)
                   (brokenRequest "POST" "https://"
                      (errorString "unexpected EOF"))) stubEngine
        = Ret w'
        /\ http.Code w' = Some 500).
Proof.
  split; [reflexivity|]. split; [reflexivity|]. split.
  - destruct (C5_body_limit (wired 16) None
                (request "POST" "https://example.com" ∅) stubEngine
                eq_refl) as [H _].
    destruct H as (w' & Hw & Hc & _); [reflexivity|].
    exists w'. split; assumption.
  - destruct (C5_body_limit (wired 16) None
                (brokenRequest "POST" "https://"
                   (errorString "unexpected EOF")) stubEngine
                eq_refl) as [_ H].
    destruct (H (errorString "unexpected EOF")) as (w' & Hw & Hc & _);
      [vm_compute; discriminate | reflexivity | reflexivity |].
    exists w'. split; assumption.
Defined.

(** C7. For every POST request to /generate whose body is read successfully
    and has zero bytes, the handler answers with status 400 (not the 413 of
    the size-exceeded case) and the message "Request body is empty", and the
    run contains no call of the service (nor of the engine). *)
Theorem C7_empty_body_rejected (h : transport.Handler)
  (fault : option error) (r : http.Request) (eng : qrcode.Engine) :
  http.Method r = http.MethodPost ->
  http.Body r = {| io.pending := []; io.ending := None |} ->
  exists w' : http.ResponseWriter,
    outcome (transport.Generate h (freshWriter fault) r) eng = Ret w'
    /\ http.Code w' = Some 400
    /\ http.Code w' <> Some http.StatusRequestEntityTooLarge
    /\ http.body w' = bytes_of_string ("Request body is empty" ++ http.newline)
    /\ serviceCalls (trace (transport.Generate h (freshWriter fault) r) eng)
       = []
    /\ encodeCalls (trace (transport.Generate h (freshWriter fault) r) eng)
       = [].
Proof.
  intros Hm Hb. unfold outcome, trace.
  rewrite Handler_empty_body by assumption.
  eexists. repeat split; try reflexivity. discriminate.
Qed.

(** C7 on POST /generate with no body. *)
Lemma C7_witness :
  http.Method (request "POST" "" ∅) = http.MethodPost
  /\ http.Body (request "POST" "" ∅)
     = {| io.pending := []; io.ending := None |}
  /\ exists w' : http.ResponseWriter,
       outcome (transport.Generate (wired 1048576) (freshWriter None)
                  (request "POST" "" ∅)) stubEngine = Ret w'
       /\ http.Code w' = Some 400.
Proof.
  split; [reflexivity|]. split; [reflexivity|].
  destruct (C7_empty_body_rejected (wired 1048576) None
              (request "POST" "" ∅) stubEngine eq_refl eq_refl)
    as (w' & Hw & Hc & _).
  exists w'. split; assumption.
Defined.

(** C9. For every request to /health, whatever its method and with any
    service behind the handler, [HealthCheck] answers with status 200,
    content type application/json and the JSON object with the one member
    status = ok (written by the JSON encoder, which ends it with a newline);
    the run contains no call of the service or the engine. *)
Theorem C9_health_check (h : transport.Handler) (fault : option error)
  (r : http.Request) (eng : qrcode.Engine) :
  exists w' : http.ResponseWriter,
    outcome (transport.HealthCheck h (freshWriter fault) r) eng = Ret w'
    /\ http.Code w' = Some 200
    /\ http.SentHeader w' "Content-Type" = Some "application/json"
    /\ string_of_bytes (http.body w')
       = "{" ++ String dquote "status" ++ String dquote ":"
         ++ String dquote "ok" ++ String dquote "}" ++ http.newline
    /\ serviceCalls (trace (transport.HealthCheck h (freshWriter fault) r) eng)
       = []
    /\ encodeCalls (trace (transport.HealthCheck h (freshWriter fault) r) eng)
       = [].
Proof.
  unfold transport.HealthCheck. run.
  destruct fault as [e|]; eexists; repeat split; reflexivity.
Qed.

(** The handler looks at the query only through the first value of [size]. *)
Lemma Generate_query_irrelevant (h : transport.Handler)
  (w : http.ResponseWriter) (r : http.Request) (q : url.Values)
  (eng : qrcode.Engine) :
  url.Get q "size" = url.Get (http.Query r) "size" ->
  transport.Generate h w (withQuery r q) eng = transport.Generate h w r eng.
Proof.
  intros Hq. unfold transport.Generate.
  cbn [withQuery http.Method http.Body http.Query http.RemoteAddr
       http.UserAgent http.ContentLength].
  rewrite Hq. reflexivity.
Qed.

(** C2, as stated, fails: in the request below the parameter [size] is
    present (with the empty value, as in [?size=]), its value is not a
    decimal integer, and yet the answer is 200, generated at the default
    size, not 400. *)
Lemma C2_counterexample :
  let r := request "POST" "https://example.com" {["size" := [""]]} in
  url.Has (http.Query r) "size" = true
  /\ notNil (snd (strconv.Atoi (url.Get (http.Query r) "size"))) = true
  /\ response (outcome (transport.Generate (wired 1048576) (freshWriter None)
                          r) stubEngine) ≫= http.Code
     = Some 200
  /\ serviceCalls (trace (transport.Generate (wired 1048576)
                            (freshWriter None) r) stubEngine)
     = [(bytes_of_string "https://example.com", 256)].
Proof. cbv zeta. repeat split; vm_compute; reflexivity. Qed.

(** C2 (amended). The handler of [main] passes only sizes in [1, 2048] to
    the service and to the engine, whatever the request.  For a POST request
    whose non-empty body was read: when the first value of the query
    parameter [size] is empty (the parameter is absent, or present with an
    empty value), the service is called with the default size 256; when it is
    non-empty it is parsed as a decimal integer before any service call, a
    parse failure or a value outside [1, 2048] is answered with status 400
    without calling the service or the engine, and a value in [1, 2048],
    both boundaries included, is the size the service is called with. *)
Theorem C2_size_parameter (maxBody : Z) (fault : option error)
  (r : http.Request) (eng : qrcode.Engine) :
  let run := transport.Generate (wired maxBody) (freshWriter fault) r in
  let sizeStr := url.Get (http.Query r) "size" in
  (Forall (fun c => 1 <= c.2 <= 2048) (serviceCalls (trace run eng))
   /\ Forall (fun c => 1 <= c.2 <= 2048) (encodeCalls (trace run eng)))
  /\ forall data : list byte,
       http.Method r = http.MethodPost ->
       http.Body r = {| io.pending := data; io.ending := None |} ->
       data <> [] ->
       blen data <= Z.max 0 maxBody ->
       (sizeStr = "" -> serviceCalls (trace run eng) = [(data, 256)])
       /\ (forall (n : Z) (err : option error),
             sizeStr <> "" ->
             strconv.Atoi sizeStr = (n, err) ->
             err <> None \/ n < 1 \/ 2048 < n ->
             exists w' : http.ResponseWriter,
               outcome run eng = Ret w'
               /\ http.Code w' = Some 400
               /\ http.body w'
                  = bytes_of_string
                      ("Invalid size parameter: must be between 1 and 2048"
                       ++ http.newline)
               /\ serviceCalls (trace run eng) = []
               /\ encodeCalls (trace run eng) = [])
       /\ (forall n : Z,
             sizeStr <> "" ->
             strconv.Atoi sizeStr = (n, None) ->
             1 <= n <= 2048 ->
             serviceCalls (trace run eng) = [(data, n)])
       /\ (sizeStr = "1" -> serviceCalls (trace run eng) = [(data, 1)])
       /\ (sizeStr = "2048" -> serviceCalls (trace run eng) = [(data, 2048)]).
Proof.
  cbv zeta. split; [apply wired_sizes_in_range|].
  intros data Hm Hb Hd Hl.
  assert (Hparsed : forall n : Z,
             url.Get (http.Query r) "size" <> "" ->
             strconv.Atoi (url.Get (http.Query r) "size") = (n, None) ->
             1 <= n <= 2048 ->
             serviceCalls
               (trace (transport.Generate (wired maxBody) (freshWriter fault)
                         r) eng) = [(data, n)]).
  { intros n Hq Ha Hn.
    apply (wired_delegates maxBody fault r eng data n Hm Hb Hd Hl).
    right. repeat split; trivial; lia. }
  split; [|split; [|split; [|split]]].
  - intros Hq.
    apply (wired_delegates maxBody fault r eng data 256 Hm Hb Hd Hl).
    left. split; trivial.
  - intros n err Hq Ha Hbad. unfold outcome, trace.
    rewrite (Handler_bad_size _ _ r eng data n err)
      by (trivial || (destruct Hbad as [H|[H|H]]; [tauto | right | right];
                      lia)).
    eexists. repeat split; reflexivity.
  - exact Hparsed.
  - intros Hq. apply Hparsed; rewrite ?Hq;
      [discriminate | reflexivity | lia].
  - intros Hq. apply Hparsed; rewrite ?Hq;
      [discriminate | reflexivity | lia].
Qed.

(** The amended C2 on POST /generate?size=5000. *)
Lemma C2_witness :
  let r := request "POST" "https://example.com" {["size" := ["5000"]]} in
  http.Method r = http.MethodPost
  /\ blen (bytes_of_string "https://example.com") <= Z.max 0 1048576
  /\ strconv.Atoi (url.Get (http.Query r) "size") = (5000, None)
  /\ exists w' : http.ResponseWriter,
       outcome (transport.Generate (wired 1048576) (freshWriter None) r)
         stubEngine = Ret w'
       /\ http.Code w' = Some 400
       /\ serviceCalls (trace (transport.Generate (wired 1048576)
                                 (freshWriter None) r) stubEngine) = [].
Proof.
  cbv zeta. split; [reflexivity|]. split; [vm_compute; discriminate|].
  split; [reflexivity|].
  destruct (C2_size_parameter 1048576 None
              (request "POST" "https://example.com" {["size" := ["5000"]]})
              stubEngine) as [_ H].
  destruct (H (bytes_of_string "https://example.com") eq_refl eq_refl)
    as (_ & Hbad & _); [discriminate | vm_compute; discriminate |].
  destruct (Hbad 5000 None) as (w' & Hw & Hc & _ & Hs & _);
    [vm_compute; discriminate | reflexivity | right; right; lia |].
  exists w'. repeat split; assumption.
Defined.

(** C10. For a /generate request whose query parameter [size] is present
    with an empty (first) value, the handler runs exactly as on the same
    request without the parameter; for a POST request with a non-empty body
    within the limit the handler of [main] then calls the service, and the
    service the engine, with the default size 256, and the answer is 200 when
    the engine succeeds and 500 when it fails, never the 400 of a parse
    failure. *)
Theorem C10_empty_size_value_is_default (maxBody : Z) (fault : option error)
  (r : http.Request) (eng : qrcode.Engine) (rest : list string)
  (data : list byte) :
  http.Query r !! "size" = Some ("" :: rest) ->
  http.Method r = http.MethodPost ->
  http.Body r = {| io.pending := data; io.ending := None |} ->
  data <> [] ->
  blen data <= Z.max 0 maxBody ->
  let run := transport.Generate (wired maxBody) (freshWriter fault) r in
  (forall (h : transport.Handler) (w : http.ResponseWriter),
     transport.Generate h w r eng
     = transport.Generate h w
         (withQuery r (delete "size" (http.Query r))) eng)
  /\ serviceCalls (trace run eng) = [(data, 256)]
  /\ encodeCalls (trace run eng) = [(string_of_bytes data, qrcode.Medium, 256)]
  /\ exists w' : http.ResponseWriter,
       outcome run eng = Ret w'
       /\ http.Code w'
          = Some (match eng (string_of_bytes data) qrcode.Medium 256 with
                  | (_, None) => 200
                  | (_, Some _) => 500
                  end).
Proof.
  intros Hq Hm Hb Hd Hl. cbv zeta.
  assert (Hget : url.Get (http.Query r) "size" = "")
    by (apply (Get_empty_first _ _ rest); exact Hq).
  split.
  { intros h w. symmetry. apply Generate_query_irrelevant.
    rewrite Hget. apply Get_absent, lookup_delete_eq. }
  destruct (wired_delegates maxBody fault r eng data 256 Hm Hb Hd Hl)
    as (Hs & He & w' & Hw & Hres); [left; split; trivial|].
  split; [exact Hs|]. split; [exact He|].
  exists w'. split; [exact Hw|].
  destruct (eng (string_of_bytes data) qrcode.Medium 256) as [png [e|]];
    [exact Hres | exact (proj1 Hres)].
Qed.

(** C10 on POST /generate?size= with body https://example.com. *)
Lemma C10_witness :
  let r := request "POST" "https://example.com" {["size" := [""]]} in
  http.Query r !! "size" = Some [""]
  /\ serviceCalls (trace (transport.Generate (wired 1048576)
                            (freshWriter None) r) stubEngine)
     = [(bytes_of_string "https://example.com", 256)]
  /\ exists w' : http.ResponseWriter,
       outcome (transport.Generate (wired 1048576) (freshWriter None) r)
         stubEngine = Ret w'
       /\ http.Code w' = Some 200.
Proof.
  cbv zeta. split; [reflexivity|].
  destruct (C10_empty_size_value_is_default 1048576 None
              (request "POST" "https://example.com" {["size" := [""]]})
              stubEngine [] (bytes_of_string "https://example.com"))
    as (_ & Hs & _ & w' & Hw & Hc);
    [reflexivity | reflexivity | reflexivity | discriminate
     | vm_compute; discriminate |].
  split; [exact Hs|]. exists w'. split; [exact Hw | exact Hc].
Defined.

(** * Further properties *)

(** ** The handler on a delegated request, for any service *)

Lemma sizeSettled_range (r : http.Request) (size : Z) :
  sizeSettled r size -> 1 <= size <= 2048.
Proof.
  intros [[_ ->]|(_ & _ & H)]; [unfold transport.defaultSize; lia | exact H].
Qed.

Lemma fault_WriteHeader (w : http.ResponseWriter) (code : Z) :
  http.fault (http.WriteHeader w code) = http.fault w.
Proof. unfold http.WriteHeader. destruct (http.sent w); reflexivity. Qed.

Lemma fault_WriteBytes (w : http.ResponseWriter) (p : list byte) :
  snd (http.WriteBytes w p) = http.fault w.
Proof. unfold http.WriteBytes. cbn [snd]. apply fault_WriteHeader. Qed.

Lemma Handler_delegates (h : transport.Handler) (w : http.ResponseWriter)
  (r : http.Request) (eng : qrcode.Engine) (data : list byte) (size : Z) :
  http.Method r = http.MethodPost ->
  http.Body r = {| io.pending := data; io.ending := None |} ->
  data <> [] ->
  blen data <= Z.max 0 (transport.maxBodySize h) ->
  sizeSettled r size ->
  transport.Generate h w r eng =
  let before :=
    ([Log LevelDebug "Received QR generation request"
        [("method", VStr (http.Method r));
         ("remote_addr", VStr (http.RemoteAddr r));
         ("user_agent", VStr (http.UserAgent r));
         ("content_length", VInt (http.ContentLength r))];
      Log LevelDebug "Reading request body"
        [("max_size", VInt (transport.maxBodySize h))];
      ReadBody data None;
      Log LevelDebug "Request body read successfully"
        [("body_size", VInt (blen data))]]
     ++ sizeEvents r size
     ++ [Log LevelDebug "Calling QR generation service"
           [("data_length", VInt (blen data)); ("size", VInt size)];
         CallService data size])%list in
  match qr.Service_Generate (transport.svc h) data size eng with
  | (Panic msg, t) => (Panic msg, (before ++ t)%list)
  | (Ret (_, Some e), t) =>
      (Ret (http.Error w "Internal server error"
              http.StatusInternalServerError),
       (before ++ t ++
        [Log LevelError "failed to generate QR code"
           [("error", VErr (Some e)); ("data_length", VInt (blen data));
            ("size", VInt size);
            ("remote_addr", VStr (http.RemoteAddr r))]])%list)
  | (Ret (png, None), t) =>
      (Ret (fst (http.WriteBytes
                   (http.WriteHeader
                      (http.SetHeader w "Content-Type" "image/png")
                      http.StatusOK) png)),
       (before ++ t ++
        [Log LevelDebug "QR code generated successfully"
           [("png_size", VInt (blen png));
            ("remote_addr", VStr (http.RemoteAddr r))];
         match http.fault w with
         | Some e =>
             Log LevelError "failed to write response"
               [("error", VErr (Some e)); ("png_size", VInt (blen png));
                ("remote_addr", VStr (http.RemoteAddr r))]
         | None =>
             Log LevelInfo "QR code request completed successfully"
               [("data_length", VInt (blen data)); ("size", VInt size);
                ("output_size", VInt (blen png));
                ("remote_addr", VStr (http.RemoteAddr r))]
         end])%list)
  end.
Proof.
  intros Hm Hb Hd Hl Hsize.
  pose proof (sizeSettled_range r size Hsize) as Hrange.
  unfold transport.Generate, sizeEvents.
  rewrite MaxBytesReader_within by (rewrite Hb; assumption).
  rewrite (proj2 (String.eqb_eq _ _) Hm), Hb. run. cbn [io.pending io.ending].
  rewrite (blen_nonzero data Hd).
  destruct Hsize as [[Hq ->]|(Hq & Ha & _)].
  - rewrite Hq. cbn [String.eqb negb].
    destruct (qr.Service_Generate (transport.svc h) data
                transport.defaultSize eng) as [[[png [e|]]|msg] t];
      [reflexivity | | reflexivity];
      destruct (http.WriteBytes _ png) as [w2 err] eqn:Hw;
      pose proof (fault_WriteBytes
                    (http.WriteHeader
                       (http.SetHeader w "Content-Type" "image/png")
                       http.StatusOK) png) as Hf;
      rewrite Hw, fault_WriteHeader in Hf; cbn [snd http.fault
        http.SetHeader] in Hf; subst err;
      destruct (http.fault w); reflexivity.
  - rewrite (proj2 (String.eqb_neq _ _) Hq), Ha. cbn [negb notNil orb].
    replace ((size <=? 0) || (transport.maxSize <? size)) with false
      by (symmetry; apply orb_false_iff; unfold transport.maxSize; lia).
    destruct (qr.Service_Generate (transport.svc h) data size eng)
      as [[[png [e|]]|msg] t];
      [reflexivity | | reflexivity];
      destruct (http.WriteBytes _ png) as [w2 err] eqn:Hw;
      pose proof (fault_WriteBytes
                    (http.WriteHeader
                       (http.SetHeader w "Content-Type" "image/png")
                       http.StatusOK) png) as Hf;
      rewrite Hw, fault_WriteHeader in Hf; cbn [snd http.fault
        http.SetHeader] in Hf; subst err;
      destruct (http.fault w); reflexivity.
Qed.

(** The handler of [main] on a delegated request: the whole run. *)
Lemma wired_run (maxBody : Z) (fault : option error) (r : http.Request)
  (eng : qrcode.Engine) (data : list byte) (size : Z) :
  http.Method r = http.MethodPost ->
  http.Body r = {| io.pending := data; io.ending := None |} ->
  data <> [] ->
  blen data <= Z.max 0 maxBody ->
  sizeSettled r size ->
  transport.Generate (wired maxBody) (freshWriter fault) r eng =
  let before :=
    ([Log LevelDebug "Received QR generation request"
        [("method", VStr (http.Method r));
         ("remote_addr", VStr (http.RemoteAddr r));
         ("user_agent", VStr (http.UserAgent r));
         ("content_length", VInt (http.ContentLength r))];
      Log LevelDebug "Reading request body" [("max_size", VInt maxBody)];
      ReadBody data None;
      Log LevelDebug "Request body read successfully"
        [("body_size", VInt (blen data))]]
     ++ sizeEvents r size
     ++ [Log LevelDebug "Calling QR generation service"
           [("data_length", VInt (blen data)); ("size", VInt size)];
         CallService data size;
         Log LevelDebug "Starting QR code generation"
           [("data_length", VInt (blen data)); ("size", VInt size)];
         Log LevelDebug "Encoding QR code"
           [("recovery_level", VStr "Medium");
            ("data_preview", VStr (previewOf data))];
         CallEncode (string_of_bytes data) qrcode.Medium size])%list in
  match eng (string_of_bytes data) qrcode.Medium size with
  | (png, None) =>
      (Ret (fst (http.WriteBytes
                   (http.WriteHeader
                      (http.SetHeader (freshWriter fault)
                         "Content-Type" "image/png")
                      http.StatusOK) png)),
       (before ++
        [Log LevelDebug "QR code generated successfully"
           [("output_size_bytes", VInt (blen png));
            ("image_dimensions", VStr (pretty size ++ "x" ++ pretty size))];
         Log LevelDebug "QR code generated successfully"
           [("png_size", VInt (blen png));
            ("remote_addr", VStr (http.RemoteAddr r))];
         match fault with
         | Some e =>
             Log LevelError "failed to write response"
               [("error", VErr (Some e)); ("png_size", VInt (blen png));
                ("remote_addr", VStr (http.RemoteAddr r))]
         | None =>
             Log LevelInfo "QR code request completed successfully"
               [("data_length", VInt (blen data)); ("size", VInt size);
                ("output_size", VInt (blen png));
                ("remote_addr", VStr (http.RemoteAddr r))]
         end])%list)
  | (_, Some e) =>
      (Ret (http.Error (freshWriter fault) "Internal server error"
              http.StatusInternalServerError),
       (before ++
        [Log LevelError "Failed to encode QR code"
           [("error", VErr (Some e)); ("data_length", VInt (blen data));
            ("size", VInt size)];
         Log LevelError "failed to generate QR code"
           [("error",
             VErr (Some (wrapError "failed to encode QR code: " e)));
            ("data_length", VInt (blen data)); ("size", VInt size);
            ("remote_addr", VStr (http.RemoteAddr r))]])%list)
  end.
Proof.
  intros Hm Hb Hd Hl Hsize.
  rewrite (Handler_delegates (wired maxBody) _ r eng data size)
    by assumption.
  cbn [wired transport.svc transport.NewHandler transport.maxBodySize
       qr.NewService qr.Service_Generate].
  rewrite Generate_valid by (trivial || apply (sizeSettled_range r), Hsize).
  cbv zeta.
  destruct (eng (string_of_bytes data) qrcode.Medium size) as [png [e|]].
  - rewrite <- !app_assoc. reflexivity.
  - rewrite <- !app_assoc. reflexivity.
Qed.

(** Every request falls in one of the six branches of the handler. *)
Lemma request_cases (limit : Z) (r : http.Request) :
  http.Method r <> http.MethodPost
  \/ (http.Method r = http.MethodPost
      /\ limit < blen (io.pending (http.Body r)))
  \/ (http.Method r = http.MethodPost
      /\ blen (io.pending (http.Body r)) <= limit
      /\ exists e : error, io.ending (http.Body r) = Some e)
  \/ (http.Method r = http.MethodPost
      /\ http.Body r = {| io.pending := []; io.ending := None |})
  \/ (http.Method r = http.MethodPost
      /\ exists (data : list byte) (n : Z) (err : option error),
           http.Body r = {| io.pending := data; io.ending := None |}
           /\ data <> [] /\ blen data <= limit
           /\ url.Get (http.Query r) "size" <> ""
           /\ strconv.Atoi (url.Get (http.Query r) "size") = (n, err)
           /\ (err <> None \/ n <= 0 \/ 2048 < n))
  \/ (http.Method r = http.MethodPost
      /\ exists (data : list byte) (size : Z),
           http.Body r = {| io.pending := data; io.ending := None |}
           /\ data <> [] /\ blen data <= limit
           /\ sizeSettled r size).
Proof.
  destruct (string_dec (http.Method r) http.MethodPost) as [Hm|Hm];
    [|left; exact Hm].
  right.
  destruct (Z_lt_le_dec limit (blen (io.pending (http.Body r)))) as [Hl|Hl];
    [left; split; assumption|].
  right.
  destruct (http.Body r) as [data [e|]] eqn:Hb;
    [left; repeat split; eauto|].
  right. cbn [io.pending] in Hl.
  destruct data as [|b data]; [left; split; trivial|].
  right.
  destruct (string_dec (url.Get (http.Query r) "size") "") as [Hq|Hq].
  { right. split; [exact Hm|]. exists (b :: data), transport.defaultSize.
    repeat split; trivial; try discriminate. left. split; trivial. }
  destruct (strconv.Atoi (url.Get (http.Query r) "size")) as [n err] eqn:Ha.
  assert (Hbad : forall P : Prop,
             (err <> None \/ n <= 0 \/ 2048 < n) ->
             (http.Method r = http.MethodPost /\
              exists (data0 : list byte) (n0 : Z) (err0 : option error),
                {| io.pending := b :: data; io.ending := None |}
                = {| io.pending := data0; io.ending := None |}
                /\ data0 <> [] /\ blen data0 <= limit
                /\ url.Get (http.Query r) "size" <> ""
                /\ (n, err) = (n0, err0)
                /\ (err0 <> None \/ n0 <= 0 \/ 2048 < n0)) \/ P).
  { intros P H. left. split; [exact Hm|]. exists (b :: data), n, err.
    repeat split; trivial; discriminate. }
  destruct err as [e|]; [apply Hbad; left; discriminate|].
  destruct (Z_le_gt_dec n 0) as [Hn|Hn]; [apply Hbad; right; left; lia|].
  destruct (Z_lt_le_dec 2048 n) as [Hn'|Hn']; [apply Hbad; right; right; lia|].
  right. split; [exact Hm|]. exists (b :: data), n.
  repeat split; trivial; try discriminate.
  right. repeat split; trivial; lia.
Qed.

(** ** truncateString for any bound *)

Lemma substring_prefix_append (n : nat) (s t : string) :
  (n <= String.length s)%nat ->
  String.substring 0 n (String.substring 0 n s ++ t) = String.substring 0 n s.
Proof.
  revert s; induction n as [|n IH]; intros s Hn.
  - destruct s; simpl; now destruct t.
  - destruct s as [|c s]; simpl in *; [lia|].
    rewrite IH; [reflexivity | lia].
Qed.

(** X1. [truncateString] panics exactly for a negative [maxLen], whatever
    the string.  For a non-negative [maxLen] it returns the string itself
    when it has at most [maxLen] bytes, and otherwise a string of exactly
    [maxLen + 3] bytes, the first [maxLen] bytes of the input followed by
    "...". *)
Theorem truncateString_bounds (s : string) (maxLen : Z) :
  (qr.truncateString s maxLen = None <-> maxLen < 0)
  /\ forall p : string,
       qr.truncateString s maxLen = Some p ->
       (len s <= maxLen -> p = s)
       /\ (maxLen < len s ->
           p = String.substring 0 (Z.to_nat maxLen) s ++ "..."
           /\ len p = maxLen + 3
           /\ String.substring 0 (Z.to_nat maxLen) p
              = String.substring 0 (Z.to_nat maxLen) s).
Proof.
  assert (Hlen : 0 <= len s) by (unfold len; lia).
  unfold qr.truncateString. split.
  - destruct (len s <=? maxLen) eqn:E1; [split; [discriminate | lia]|].
    destruct (maxLen <? 0) eqn:E2; split; try reflexivity; try lia;
      discriminate.
  - intros p Hp.
    destruct (len s <=? maxLen) eqn:E1.
    { injection Hp as <-. split; [reflexivity | lia]. }
    destruct (maxLen <? 0) eqn:E2; [discriminate|].
    injection Hp as <-. split; [lia|]. intros _.
    assert (Hn : (Z.to_nat maxLen <= String.length s)%nat)
      by (unfold len in *; lia).
    split; [reflexivity|]. split.
    + unfold len. rewrite length_string_append, length_substring_prefix
        by exact Hn. simpl. lia.
    + apply substring_prefix_append, Hn.
Qed.

(** [truncateString_bounds] on "hello" cut to 3 bytes. *)
Lemma truncateString_bounds_witness :
  qr.truncateString "hello" 3 = Some "hel..." /\ len "hel..." = 3 + 3.
Proof.
  destruct (truncateString_bounds "hello" 3) as [_ H].
  destruct (H "hel..." eq_refl) as [_ H2].
  destruct H2 as (_ & Hl & _); [reflexivity|].
  split; [reflexivity | exact Hl].
Defined.

(** X2. Truncating twice with the same bound is truncating once: the output
    of [truncateString] is a fixed point of [truncateString]. *)
Theorem truncateString_idempotent (s p : string) (maxLen : Z) :
  qr.truncateString s maxLen = Some p ->
  qr.truncateString p maxLen = Some p.
Proof.
  intros Hp. unfold qr.truncateString in *.
  destruct (len s <=? maxLen) eqn:E1.
  { injection Hp as <-. now rewrite E1. }
  destruct (maxLen <? 0) eqn:E2; [discriminate|]. injection Hp as <-.
  assert (Hn : (Z.to_nat maxLen <= String.length s)%nat)
    by (unfold len in *; lia).
  assert (Hlen : len (String.substring 0 (Z.to_nat maxLen) s ++ "...")
                 = maxLen + 3).
  { unfold len. rewrite length_string_append, length_substring_prefix
      by exact Hn. simpl. lia. }
  destruct (len (String.substring 0 (Z.to_nat maxLen) s ++ "...")
            <=? maxLen) eqn:E3; [lia|].
  now rewrite substring_prefix_append by exact Hn.
Qed.

(** [truncateString_idempotent] on "hello" cut to 3 bytes. *)
Lemma truncateString_idempotent_witness :
  qr.truncateString "hello" 3 = Some "hel..."
  /\ qr.truncateString "hel..." 3 = Some "hel...".
Proof.
  split; [reflexivity|].
  apply (truncateString_idempotent "hello" "hel..." 3). reflexivity.
Defined.

(** ** The Generation Service: what every run keeps *)

(** X3. [Generate] never panics and is all-or-nothing: when it returns an
    error it returns no bytes, even if the engine handed bytes back with its
    error; it returns no error only for a non-empty payload and a size in
    [1, 2048] on which the engine reported success, and then the bytes are
    the engine's. *)
Theorem Generate_all_or_nothing (s : qr.service) (data : list byte)
  (size : Z) (eng : qrcode.Engine) :
  exists (png : list byte) (err : option error),
    outcome (qr.Generate s data size) eng = Ret (png, err)
    /\ (err <> None -> png = [])
    /\ (err = None ->
        data <> [] /\ 1 <= size <= 2048
        /\ eng (string_of_bytes data) qrcode.Medium size = (png, None)).
Proof.
  unfold outcome. destruct data as [|b data].
  { rewrite Generate_empty. eexists _, _. split; [reflexivity|].
    split; [reflexivity | discriminate]. }
  destruct (Z_le_gt_dec size 0) as [H0|H0].
  { rewrite Generate_bad_size by (discriminate || lia).
    eexists _, _. split; [reflexivity|].
    split; [reflexivity | discriminate]. }
  destruct (Z_lt_le_dec 2048 size) as [H1|H1].
  { rewrite Generate_bad_size by (discriminate || lia).
    eexists _, _. split; [reflexivity|].
    split; [reflexivity | discriminate]. }
  rewrite Generate_valid by (discriminate || lia). cbv zeta.
  destruct (eng (string_of_bytes (b :: data)) qrcode.Medium size)
    as [png [e|]]; eexists _, _; (split; [reflexivity|]); split;
    try reflexivity; try discriminate; try congruence.
  intros _. repeat split; try discriminate; lia.
Qed.

(** X4. In every run of [Generate] the engine is called at most once, and
    only with the payload as a non-empty string, the recovery level Medium
    and the requested size, which is then in [1, 2048]. *)
Theorem Generate_engine_calls (s : qr.service) (data : list byte)
  (size : Z) (eng : qrcode.Engine) :
  (length (encodeCalls (trace (qr.Generate s data size) eng)) <= 1)%nat
  /\ Forall (fun c => c.1.1 = string_of_bytes data
                      /\ c.1.1 <> ""
                      /\ c.1.2 = qrcode.Medium
                      /\ c.2 = size
                      /\ 1 <= c.2 <= 2048)
       (encodeCalls (trace (qr.Generate s data size) eng)).
Proof.
  unfold trace. destruct data as [|b data].
  { rewrite Generate_empty. split; [simpl; lia | constructor]. }
  destruct (Z_le_gt_dec size 0) as [H0|H0].
  { rewrite Generate_bad_size by (discriminate || lia).
    split; [simpl; lia | constructor]. }
  destruct (Z_lt_le_dec 2048 size) as [H1|H1].
  { rewrite Generate_bad_size by (discriminate || lia).
    split; [simpl; lia | constructor]. }
  rewrite Generate_valid by (discriminate || lia). cbv zeta.
  destruct (eng (string_of_bytes (b :: data)) qrcode.Medium size)
    as [png [e|]]; (split; [simpl; lia|]); repeat constructor;
    cbn [fst snd]; try discriminate; lia.
Qed.

(** X5. Every failure of [Generate] is logged exactly once above the debug
    level: a rejected input gives one warning and no error event, an engine
    failure one error event and no warning, and a successful run logs at the
    debug level only.  Nothing is ever logged at the info level. *)
Theorem Generate_log_levels (s : qr.service) (data : list byte)
  (size : Z) (eng : qrcode.Engine) :
  let t := trace (qr.Generate s data size) eng in
  let failed :=
    match outcome (qr.Generate s data size) eng with
    | Ret (_, Some _) => true
    | _ => false
    end in
  logsAt LevelInfo t = []
  /\ length (logsAt LevelWarn t ++ logsAt LevelError t)%list
     = (if failed then 1 else 0)%nat
  /\ (logsAt LevelWarn t <> [] <-> data = [] \/ size <= 0 \/ 2048 < size)
  /\ (logsAt LevelError t <> [] <->
      data <> [] /\ 1 <= size <= 2048
      /\ snd (eng (string_of_bytes data) qrcode.Medium size) <> None).
Proof.
  cbv zeta. unfold trace, outcome. destruct data as [|b data].
  { rewrite Generate_empty. cbn.
    intuition (try discriminate; try lia; try congruence). }
  assert (Hd : b :: data <> []) by discriminate.
  destruct (Z_le_gt_dec size 0) as [H0|H0].
  { rewrite Generate_bad_size by (trivial || lia). cbn.
    intuition (try discriminate; try lia; try congruence). }
  destruct (Z_lt_le_dec 2048 size) as [H1|H1].
  { rewrite Generate_bad_size by (trivial || lia). cbn.
    intuition (try discriminate; try lia; try congruence). }
  rewrite Generate_valid by (trivial || lia). cbv zeta.
  destruct (eng (string_of_bytes (b :: data)) qrcode.Medium size)
    as [png [e|]]; cbn;
    intuition (try discriminate; try lia; try congruence).
Qed.

(** ** The Request Handler: responses *)

(** X6. When the handler of [main] delegates a POST request (non-empty body
    within the limit, size settled) and the engine succeeds, the answer is
    200 with content type image/png, without the nosniff header of error
    replies, and its body is exactly the engine's bytes. *)
Theorem Generate_success_response (maxBody : Z) (fault : option error)
  (r : http.Request) (eng : qrcode.Engine) (data png : list byte)
  (size : Z) :
  http.Method r = http.MethodPost ->
  http.Body r = {| io.pending := data; io.ending := None |} ->
  data <> [] ->
  blen data <= Z.max 0 maxBody ->
  sizeSettled r size ->
  eng (string_of_bytes data) qrcode.Medium size = (png, None) ->
  exists w' : http.ResponseWriter,
    outcome (transport.Generate (wired maxBody) (freshWriter fault) r) eng
    = Ret w'
    /\ http.Code w' = Some 200
    /\ http.SentHeader w' "Content-Type" = Some "image/png"
    /\ http.SentHeader w' "X-Content-Type-Options" = None
    /\ http.body w' = png.
Proof.
  intros Hm Hb Hd Hl Hsize Heng. unfold outcome.
  rewrite (wired_run maxBody fault r eng data size) by assumption.
  cbv zeta. rewrite Heng. eexists. repeat split; reflexivity.
Qed.

(** [Generate_success_response] on POST /generate?size=128. *)
Lemma Generate_success_response_witness :
  exists w' : http.ResponseWriter,
    outcome (transport.Generate (wired 1048576) (freshWriter None)
               (request "POST" "https://example.com"
                  {["size" := ["128"]]})) stubEngine = Ret w'
    /\ http.Code w' = Some 200
    /\ http.body w'
       = ([x89; x50; x4e; x47; x0d; x0a; x1a; x0a]
          ++ bytes_of_string "https://example.com")%list.
Proof.
  destruct (Generate_success_response 1048576 None
              (request "POST" "https://example.com" {["size" := ["128"]]})
              stubEngine (bytes_of_string "https://example.com")
              ([x89; x50; x4e; x47; x0d; x0a; x1a; x0a]
               ++ bytes_of_string "https://example.com")%list 128)
    as (w' & Hw & Hc & _ & _ & Hbody);
    [reflexivity | reflexivity | discriminate | vm_compute; discriminate
     | right; repeat split; [discriminate | lia | lia] | reflexivity |].
  exists w'. repeat split; assumption.
Defined.

(** X7. Whatever service is behind the handler: when the service returns an
    error on a delegated request, the answer is 500 with the fixed plain-text
    body "Internal server error"; neither the error nor any bytes the
    service returned with it reach the response. *)
Theorem Generate_service_error_hidden (h : transport.Handler)
  (fault : option error) (r : http.Request) (eng : qrcode.Engine)
  (data returned : list byte) (size : Z) (e : error) (t : list Event) :
  http.Method r = http.MethodPost ->
  http.Body r = {| io.pending := data; io.ending := None |} ->
  data <> [] ->
  blen data <= Z.max 0 (transport.maxBodySize h) ->
  sizeSettled r size ->
  qr.Service_Generate (transport.svc h) data size eng
  = (Ret (returned, Some e), t) ->
  exists w' : http.ResponseWriter,
    outcome (transport.Generate h (freshWriter fault) r) eng = Ret w'
    /\ http.Code w' = Some 500
    /\ http.SentHeader w' "Content-Type" = Some "text/plain; charset=utf-8"
    /\ http.body w'
       = bytes_of_string ("Internal server error" ++ http.newline).
Proof.
  intros Hm Hb Hd Hl Hsize Hsvc. unfold outcome.
  rewrite (Handler_delegates h _ r eng data size) by assumption.
  cbv zeta. rewrite Hsvc. eexists. repeat split; reflexivity.
Qed.

(** [Generate_service_error_hidden] with a service that always fails. *)
Lemma Generate_service_error_hidden_witness :
  exists w' : http.ResponseWriter,
    outcome (transport.Generate
               (transport.NewHandler
                  (failingService (errorString "secret detail"))
                  slogLogger 1048576)
               (freshWriter None)
               (request "POST" "https://example.com" ∅)) stubEngine = Ret w'
    /\ http.Code w' = Some 500
    /\ http.body w'
       = bytes_of_string ("Internal server error" ++ http.newline).
Proof.
  destruct (Generate_service_error_hidden
              (transport.NewHandler
                 (failingService (errorString "secret detail"))
                 slogLogger 1048576)
              None (request "POST" "https://example.com" ∅) stubEngine
              (bytes_of_string "https://example.com")
              (bytes_of_string "ignored") 256
              (errorString "secret detail")
              [Log LevelError "stub failure"
                 [("error", VErr (Some (errorString "secret detail")))]])
    as (w' & Hw & Hc & _ & Hbody);
    [reflexivity | reflexivity | discriminate | vm_compute; discriminate
     | left; split; reflexivity | reflexivity |].
  exists w'. repeat split; assumption.
Defined.

(** X8. A failure to write the image does not change the answer: on a
    delegated request on which the engine succeeds the status is 200 whether
    or not the connection fails; with a failing connection the handler logs
    the one error "failed to write response" and no completion line, with a
    healthy one the one info line "QR code request completed successfully"
    and no error. *)
Theorem Generate_write_failure_logged (maxBody : Z) (fault : option error)
  (r : http.Request) (eng : qrcode.Engine) (data png : list byte)
  (size : Z) :
  http.Method r = http.MethodPost ->
  http.Body r = {| io.pending := data; io.ending := None |} ->
  data <> [] ->
  blen data <= Z.max 0 maxBody ->
  sizeSettled r size ->
  eng (string_of_bytes data) qrcode.Medium size = (png, None) ->
  let run := transport.Generate (wired maxBody) (freshWriter fault) r in
  response (outcome run eng) ≫= http.Code = Some 200
  /\ logsAt LevelError (trace run eng)
     = match fault with
       | Some _ => ["failed to write response"]
       | None => []
       end
  /\ logsAt LevelInfo (trace run eng)
     = match fault with
       | Some _ => []
       | None => ["QR code request completed successfully"]
       end.
Proof.
  intros Hm Hb Hd Hl Hsize Heng. cbv zeta. unfold outcome, trace.
  rewrite (wired_run maxBody fault r eng data size) by assumption.
  cbv zeta. rewrite Heng. unfold sizeEvents.
  destruct (String.eqb (url.Get (http.Query r) "size") "");
    destruct fault as [e|]; repeat split; reflexivity.
Qed.

(** [Generate_write_failure_logged] on a connection that is reset. *)
Lemma Generate_write_failure_logged_witness :
  logsAt LevelError
    (trace (transport.Generate (wired 1048576)
              (freshWriter (Some (errorString "connection reset")))
              (request "POST" "https://example.com" ∅)) stubEngine)
  = ["failed to write response"].
Proof.
  apply (Generate_write_failure_logged 1048576
           (Some (errorString "connection reset"))
           (request "POST" "https://example.com" ∅) stubEngine
           (bytes_of_string "https://example.com")
           ([x89; x50; x4e; x47; x0d; x0a; x1a; x0a]
            ++ bytes_of_string "https://example.com")%list 256);
    [reflexivity | reflexivity | discriminate | vm_compute; discriminate
     | left; split; reflexivity | reflexivity].
Defined.

(** ** The Request Handler: what every run keeps *)

Lemma blen_take_le (n : Z) (l : list byte) :
  0 <= n -> blen (take (Z.to_nat n) l) <= n.
Proof. intros H. unfold blen. rewrite length_take. lia. Qed.

(** X9. Whatever the request, the handler of [main] returns (it does not
    panic) and has sent exactly one of the statuses 200, 400, 405, 413 and
    500; a 200 reply has content type image/png, every other reply is plain
    text with the nosniff header. *)
Theorem Generate_always_answers (maxBody : Z) (fault : option error)
  (r : http.Request) (eng : qrcode.Engine) :
  exists (w' : http.ResponseWriter) (code : Z),
    outcome (transport.Generate (wired maxBody) (freshWriter fault) r) eng
    = Ret w'
    /\ http.Code w' = Some code
    /\ In code [200; 400; 405; 413; 500]
    /\ (code = 200 -> http.SentHeader w' "Content-Type" = Some "image/png")
    /\ (code <> 200 ->
        http.SentHeader w' "Content-Type" = Some "text/plain; charset=utf-8"
        /\ http.SentHeader w' "X-Content-Type-Options" = Some "nosniff").
Proof.
  unfold outcome.
  destruct (request_cases (Z.max 0 maxBody) r)
    as [Hm|[[Hm Hl]|[(Hm & Hl & e & He)|[[Hm Hb]|
        [(Hm & data & n & err & Hb & Hd & Hl & Hq & Ha & Hbad)
        |(Hm & data & size & Hb & Hd & Hl & Hsize)]]]]].
  - rewrite Handler_not_post by assumption.
    eexists _, 405. repeat split; try reflexivity; try discriminate.
    simpl; tauto.
  - rewrite Handler_too_large by assumption. cbv zeta.
    eexists _, 413. repeat split; try reflexivity; try discriminate.
    simpl; tauto.
  - rewrite (Handler_read_failed _ _ _ _ e) by assumption. cbv zeta.
    destruct (errors.As_MaxBytesError e);
      [eexists _, 413 | eexists _, 500];
      repeat split; try reflexivity; try discriminate; simpl; tauto.
  - rewrite Handler_empty_body by assumption.
    eexists _, 400. repeat split; try reflexivity; try discriminate.
    simpl; tauto.
  - rewrite (Handler_bad_size _ _ _ _ data n err) by assumption.
    eexists _, 400. repeat split; try reflexivity; try discriminate.
    simpl; tauto.
  - rewrite (wired_run maxBody fault r eng data size) by assumption.
    cbv zeta.
    destruct (eng (string_of_bytes data) qrcode.Medium size) as [png [e|]];
      [eexists _, 500 | eexists _, 200];
      repeat split; try reflexivity; try discriminate; try congruence;
      simpl; tauto.
Qed.

(** X10. The handler of [main] reads the request body exactly once when the
    method is POST and never otherwise, and a read never delivers more bytes
    than the body limit. *)
Theorem Generate_body_reads (maxBody : Z) (fault : option error)
  (r : http.Request) (eng : qrcode.Engine) :
  let t := trace (transport.Generate (wired maxBody) (freshWriter fault) r)
             eng in
  length (bodyReads t)
  = (if String.eqb (http.Method r) http.MethodPost then 1 else 0)%nat
  /\ Forall (fun rd => blen rd.1 <= bodyLimit maxBody) (bodyReads t).
Proof.
  cbv zeta. unfold trace, bodyLimit.
  destruct (request_cases (Z.max 0 maxBody) r)
    as [Hm|[[Hm Hl]|[(Hm & Hl & e & He)|[[Hm Hb]|
        [(Hm & data & n & err & Hb & Hd & Hl & Hq & Ha & Hbad)
        |(Hm & data & size & Hb & Hd & Hl & Hsize)]]]]].
  - rewrite Handler_not_post by assumption.
    rewrite (proj2 (String.eqb_neq _ _) Hm). split; [reflexivity|constructor].
  - rewrite Handler_too_large by assumption. cbv zeta.
    rewrite (proj2 (String.eqb_eq _ _) Hm). split; [reflexivity|].
    repeat constructor. cbn [fst]. apply blen_take_le. lia.
  - rewrite (Handler_read_failed _ _ _ _ e) by assumption. cbv zeta.
    rewrite (proj2 (String.eqb_eq _ _) Hm).
    destruct (errors.As_MaxBytesError e); (split; [reflexivity|]);
      repeat constructor; exact Hl.
  - rewrite Handler_empty_body by assumption.
    rewrite (proj2 (String.eqb_eq _ _) Hm). split; [reflexivity|].
    repeat constructor. cbn [fst]. unfold blen. simpl. lia.
  - rewrite (Handler_bad_size _ _ _ _ data n err) by assumption.
    rewrite (proj2 (String.eqb_eq _ _) Hm). split; [reflexivity|].
    repeat constructor. exact Hl.
  - rewrite (wired_run maxBody fault r eng data size) by assumption.
    cbv zeta. rewrite (proj2 (String.eqb_eq _ _) Hm). unfold sizeEvents.
    destruct (String.eqb (url.Get (http.Query r) "size") "");
      destruct (eng (string_of_bytes data) qrcode.Medium size)
        as [png [e|]]; try destruct fault as [e'|];
      (split; [reflexivity|]); repeat constructor; exact Hl.
Qed.

(** X11. Whatever the request, the handler of [main] calls the service at
    most once, every service call is followed by exactly one engine call
    (the service's own validation never rejects what the handler passes),
    and what they receive is the request body as read: non-empty, within
    the body limit, at recovery level Medium. *)
Theorem Generate_payload_invariants (maxBody : Z) (fault : option error)
  (r : http.Request) (eng : qrcode.Engine) :
  let t := trace (transport.Generate (wired maxBody) (freshWriter fault) r)
             eng in
  (length (serviceCalls t) <= 1)%nat
  /\ length (encodeCalls t) = length (serviceCalls t)
  /\ Forall (fun c => c.1 = io.pending (http.Body r)
                      /\ c.1 <> []
                      /\ blen c.1 <= bodyLimit maxBody)
       (serviceCalls t)
  /\ Forall (fun c => c.1.1 = string_of_bytes (io.pending (http.Body r))
                      /\ c.1.2 = qrcode.Medium)
       (encodeCalls t).
Proof.
  cbv zeta. unfold trace, bodyLimit.
  destruct (request_cases (Z.max 0 maxBody) r)
    as [Hm|[[Hm Hl]|[(Hm & Hl & e & He)|[[Hm Hb]|
        [(Hm & data & n & err & Hb & Hd & Hl & Hq & Ha & Hbad)
        |(Hm & data & size & Hb & Hd & Hl & Hsize)]]]]].
  - rewrite Handler_not_post by assumption.
    repeat split; try (simpl; lia); try reflexivity; constructor.
  - rewrite Handler_too_large by assumption.
    repeat split; try (simpl; lia); try reflexivity; constructor.
  - rewrite (Handler_read_failed _ _ _ _ e) by assumption. cbv zeta.
    destruct (errors.As_MaxBytesError e); repeat split; try (simpl; lia); try reflexivity; constructor.
  - rewrite Handler_empty_body by assumption.
    repeat split; try (simpl; lia); try reflexivity; constructor.
  - rewrite (Handler_bad_size _ _ _ _ data n err) by assumption.
    repeat split; try (simpl; lia); try reflexivity; constructor.
  - rewrite (wired_run maxBody fault r eng data size) by assumption.
    cbv zeta. rewrite Hb. unfold sizeEvents.
    destruct (String.eqb (url.Get (http.Query r) "size") "");
      destruct (eng (string_of_bytes data) qrcode.Medium size)
        as [png [e|]]; try destruct fault as [e'|];
      repeat split; try (simpl; lia); try reflexivity;
      repeat constructor; trivial.
Qed.

(** X12. Through the handler of [main] the service never rejects its input:
    whatever the request, neither validation warning of the service is
    logged, and the handler logs "failed to generate QR code" exactly when
    the service logged an engine failure. *)
Theorem Generate_validation_unreachable (maxBody : Z)
  (fault : option error) (r : http.Request) (eng : qrcode.Engine) :
  let t := trace (transport.Generate (wired maxBody) (freshWriter fault) r)
             eng in
  ~ In "QR code generation failed: empty data provided" (logsAt LevelWarn t)
  /\ ~ In "QR code generation failed: invalid size" (logsAt LevelWarn t)
  /\ (In "failed to generate QR code" (logsAt LevelError t)
      <-> In "Failed to encode QR code" (logsAt LevelError t)).
Proof.
  cbv zeta. unfold trace.
  destruct (request_cases (Z.max 0 maxBody) r)
    as [Hm|[[Hm Hl]|[(Hm & Hl & e & He)|[[Hm Hb]|
        [(Hm & data & n & err & Hb & Hd & Hl & Hq & Ha & Hbad)
        |(Hm & data & size & Hb & Hd & Hl & Hsize)]]]]].
  - rewrite Handler_not_post by assumption. cbn.
    intuition discriminate.
  - rewrite Handler_too_large by assumption. cbn.
    intuition discriminate.
  - rewrite (Handler_read_failed _ _ _ _ e) by assumption. cbv zeta.
    destruct (errors.As_MaxBytesError e); cbn; intuition discriminate.
  - rewrite Handler_empty_body by assumption. cbn.
    intuition discriminate.
  - rewrite (Handler_bad_size _ _ _ _ data n err) by assumption. cbn.
    intuition discriminate.
  - rewrite (wired_run maxBody fault r eng data size) by assumption.
    cbv zeta. unfold sizeEvents.
    destruct (String.eqb (url.Get (http.Query r) "size") "");
      destruct (eng (string_of_bytes data) qrcode.Medium size)
        as [png [e|]]; try destruct fault as [e'|];
      cbn; intuition discriminate.
Qed.

(** X13. With a configured maximum body size of 0 or less nothing is ever
    delegated: whatever the service behind the handler and whatever the
    request, the run contains no call of the service or the engine, and the
    answer is one of 400, 405, 413 and 500. *)
Theorem Generate_nonpositive_limit (h : transport.Handler)
  (fault : option error) (r : http.Request) (eng : qrcode.Engine) :
  transport.maxBodySize h <= 0 ->
  serviceCalls (trace (transport.Generate h (freshWriter fault) r) eng) = []
  /\ encodeCalls (trace (transport.Generate h (freshWriter fault) r) eng)
     = []
  /\ exists (w' : http.ResponseWriter) (code : Z),
       outcome (transport.Generate h (freshWriter fault) r) eng = Ret w'
       /\ http.Code w' = Some code
       /\ In code [400; 405; 413; 500].
Proof.
  intros Hmax. unfold trace, outcome.
  assert (Hzero : forall data : list byte,
             data <> [] -> ~ blen data <= Z.max 0 (transport.maxBodySize h)).
  { intros [|b data] Hd; [congruence|]. unfold blen. simpl. lia. }
  destruct (request_cases (Z.max 0 (transport.maxBodySize h)) r)
    as [Hm|[[Hm Hl]|[(Hm & Hl & e & He)|[[Hm Hb]|
        [(Hm & data & n & err & Hb & Hd & Hl & Hq & Ha & Hbad)
        |(Hm & data & size & Hb & Hd & Hl & Hsize)]]]]].
  - rewrite Handler_not_post by assumption.
    repeat split. eexists _, 405. repeat split. simpl; tauto.
  - rewrite Handler_too_large by assumption.
    repeat split. eexists _, 413. repeat split. simpl; tauto.
  - rewrite (Handler_read_failed _ _ _ _ e) by assumption. cbv zeta.
    destruct (errors.As_MaxBytesError e); repeat split;
      [eexists _, 413 | eexists _, 500]; repeat split; simpl; tauto.
  - rewrite Handler_empty_body by assumption.
    repeat split. eexists _, 400. repeat split. simpl; tauto.
  - destruct (Hzero data Hd Hl).
  - destruct (Hzero data Hd Hl).
Qed.

(** [Generate_nonpositive_limit] with the limit 0. *)
Lemma Generate_nonpositive_limit_witness :
  serviceCalls (trace (transport.Generate (wired 0) (freshWriter None)
                         (request "POST" "https://example.com" ∅))
                  stubEngine) = [].
Proof.
  apply (Generate_nonpositive_limit (wired 0) None
           (request "POST" "https://example.com" ∅) stubEngine).
  vm_compute. discriminate.
Defined.

(** X14. The body limit is inclusive.  For a POST request whose body stream
    ends cleanly after a non-empty body and whose size is settled, the
    handler of [main] calls the service (with the body and that size)
    exactly when the body has at most as many bytes as the limit, and
    answers 413 exactly when it has more. *)
Theorem Generate_limit_inclusive (maxBody : Z) (fault : option error)
  (r : http.Request) (eng : qrcode.Engine) (data : list byte) (size : Z) :
  http.Method r = http.MethodPost ->
  http.Body r = {| io.pending := data; io.ending := None |} ->
  data <> [] ->
  sizeSettled r size ->
  let run := transport.Generate (wired maxBody) (freshWriter fault) r in
  (blen data <= bodyLimit maxBody
   <-> serviceCalls (trace run eng) = [(data, size)])
  /\ (bodyLimit maxBody < blen data
      <-> response (outcome run eng) ≫= http.Code = Some 413).
Proof.
  intros Hm Hb Hd Hsize. cbv zeta. unfold bodyLimit, trace, outcome.
  destruct (Z_lt_le_dec (Z.max 0 maxBody) (blen data)) as [Hl|Hl].
  - rewrite Handler_too_large by (rewrite ?Hb; assumption). cbv zeta.
    split; split; try reflexivity; try lia; discriminate.
  - rewrite (wired_run maxBody fault r eng data size) by assumption.
    cbv zeta. unfold sizeEvents.
    destruct (String.eqb (url.Get (http.Query r) "size") "");
      destruct (eng (string_of_bytes data) qrcode.Medium size)
        as [png [e|]]; try destruct fault as [e'|];
      split; split; try reflexivity; try lia; discriminate.
Qed.

(** [Generate_limit_inclusive] on a body of exactly the limit, 19 bytes. *)
Lemma Generate_limit_inclusive_witness :
  blen (bytes_of_string "https://example.com") = 19
  /\ serviceCalls
       (trace (transport.Generate (wired 19) (freshWriter None)
                 (request "POST" "https://example.com" ∅)) stubEngine)
     = [(bytes_of_string "https://example.com", 256)].
Proof.
  split; [reflexivity|].
  apply (Generate_limit_inclusive 19 None
           (request "POST" "https://example.com" ∅) stubEngine
           (bytes_of_string "https://example.com") 256);
    [reflexivity | reflexivity | discriminate | left; split; reflexivity
     | vm_compute; discriminate].
Defined.

(** X15. Whatever service is behind the handler, the response depends only
    on the request's method, its body stream and the first value of the
    query parameter [size]: two requests that agree on these get the same
    response, whatever their Content-Length, User-Agent, remote address and
    other query parameters, which are only logged. *)
Theorem Generate_response_depends_on (h : transport.Handler)
  (w : http.ResponseWriter) (r1 r2 : http.Request) (eng : qrcode.Engine) :
  http.Method r1 = http.Method r2 ->
  http.Body r1 = http.Body r2 ->
  url.Get (http.Query r1) "size" = url.Get (http.Query r2) "size" ->
  outcome (transport.Generate h w r1) eng
  = outcome (transport.Generate h w r2) eng.
Proof.
  intros HM HB HQ. unfold outcome.
  destruct (request_cases (Z.max 0 (transport.maxBodySize h)) r1)
    as [Hm|[[Hm Hl]|[(Hm & Hl & e & He)|[[Hm Hb]|
        [(Hm & data & n & err & Hb & Hd & Hl & Hq & Ha & Hbad)
        |(Hm & data & size & Hb & Hd & Hl & Hsize)]]]]].
  - rewrite (Handler_not_post h w r1) by assumption.
    rewrite (Handler_not_post h w r2) by (rewrite <- HM; assumption).
    reflexivity.
  - rewrite (Handler_too_large h w r1) by assumption.
    rewrite (Handler_too_large h w r2) by (rewrite <- ?HM, <- ?HB; assumption).
    reflexivity.
  - rewrite (Handler_read_failed h w r1 eng e) by assumption.
    rewrite (Handler_read_failed h w r2 eng e)
      by (rewrite <- ?HM, <- ?HB; assumption).
    cbv zeta. destruct (errors.As_MaxBytesError e); reflexivity.
  - rewrite (Handler_empty_body h w r1) by assumption.
    rewrite (Handler_empty_body h w r2)
      by (rewrite <- ?HM, <- ?HB; assumption).
    reflexivity.
  - rewrite (Handler_bad_size h w r1 eng data n err) by assumption.
    rewrite (Handler_bad_size h w r2 eng data n err)
      by (rewrite <- ?HM, <- ?HB, <- ?HQ; assumption).
    reflexivity.
  - assert (Hsize2 : sizeSettled r2 size)
      by (unfold sizeSettled in *; rewrite <- HQ; exact Hsize).
    rewrite (Handler_delegates h w r1 eng data size) by assumption.
    rewrite (Handler_delegates h w r2 eng data size)
      by (rewrite <- ?HM, <- ?HB; assumption).
    cbv zeta.
    destruct (qr.Service_Generate (transport.svc h) data size eng)
      as [[[png [e|]]|msg] t]; reflexivity.
Qed.

(** [Generate_response_depends_on] on two requests that differ in an extra
    query parameter and in the client's address. *)
Lemma Generate_response_depends_on_witness :
  outcome (transport.Generate (wired 1048576) (freshWriter None)
             (request "POST" "https://example.com" {["size" := ["128"]]}))
    stubEngine
  = outcome (transport.Generate (wired 1048576) (freshWriter None)
               {| http.Method := "POST";
                  http.Body :=
                    {| io.pending := bytes_of_string "https://example.com";
                       io.ending := None |};
                  http.Query := {["size" := ["128"; "7"]; "fmt" := ["svg"]]};
                  http.RemoteAddr := "198.51.100.7:1234";
                  http.UserAgent := "";
                  http.ContentLength := 0 |})
      stubEngine.
Proof.
  apply Generate_response_depends_on; reflexivity.
Defined.

(** Decimal digits of the sizes: printing then parsing. *)
Lemma Atoi_pretty_sizes (n : Z) :
  1 <= n <= 2048 ->
  strconv.Atoi (pretty n) = (n, None) /\ pretty n <> "".
Proof.
  intros Hn.
  assert (Hall : forallb (fun m =>
                   match strconv.Atoi (pretty m) with
                   | (k, None) => (k =? m) && negb (String.eqb (pretty m) "")
                   | _ => false
                   end) (seqZ 1 2048) = true)
    by (vm_compute; reflexivity).
  rewrite forallb_forall in Hall.
  specialize (Hall n).
  assert (Hin : In n (seqZ 1 2048)).
  { apply list_elem_of_In, elem_of_seqZ. lia. }
  specialize (Hall Hin).
  destruct (strconv.Atoi (pretty n)) as [k [e|]]; [discriminate|].
  apply andb_true_iff in Hall as [Hk Hne].
  apply Z.eqb_eq in Hk. subst k. split; [reflexivity|].
  apply String.eqb_neq. now destruct (String.eqb (pretty n) "").
Qed.

(** X16. Every size in [1, 2048] written in decimal is accepted and used:
    for a POST request with a non-empty body within the limit whose [size]
    parameter is the decimal numeral of [n], the handler of [main] calls
    the service and the engine with size [n]. *)
Theorem Generate_decimal_size_used (maxBody : Z) (fault : option error)
  (r : http.Request) (eng : qrcode.Engine) (data : list byte) (n : Z) :
  http.Method r = http.MethodPost ->
  http.Body r = {| io.pending := data; io.ending := None |} ->
  data <> [] ->
  blen data <= Z.max 0 maxBody ->
  1 <= n <= 2048 ->
  url.Get (http.Query r) "size" = pretty n ->
  let run := transport.Generate (wired maxBody) (freshWriter fault) r in
  serviceCalls (trace run eng) = [(data, n)]
  /\ encodeCalls (trace run eng) = [(string_of_bytes data, qrcode.Medium, n)].
Proof.
  intros Hm Hb Hd Hl Hn Hq. cbv zeta.
  destruct (Atoi_pretty_sizes n Hn) as [Ha Hne].
  destruct (wired_delegates maxBody fault r eng data n Hm Hb Hd Hl)
    as (Hs & He & _).
  { right. rewrite Hq. repeat split; trivial; lia. }
  split; assumption.
Qed.

(** [Generate_decimal_size_used] on POST /generate?size=1024. *)
Lemma Generate_decimal_size_used_witness :
  pretty 1024 = "1024"
  /\ serviceCalls
       (trace (transport.Generate (wired 1048576) (freshWriter None)
                 (request "POST" "https://example.com"
                    {["size" := ["1024"]]})) stubEngine)
     = [(bytes_of_string "https://example.com", 1024)].
Proof.
  split; [reflexivity|].
  apply (Generate_decimal_size_used 1048576 None
           (request "POST" "https://example.com" {["size" := ["1024"]]})
           stubEngine (bytes_of_string "https://example.com") 1024);
    [reflexivity | reflexivity | discriminate | vm_compute; discriminate
     | lia | reflexivity].
Defined.

(** X17. [HealthCheck] never reads the request body and never uses the
    service; it logs an error exactly when writing the reply fails, and the
    status line it has sent is 200 even then.  Its response is the same for
    every request and every handler. *)
Theorem HealthCheck_ignores_request (h1 h2 : transport.Handler)
  (fault : option error) (r1 r2 : http.Request) (eng : qrcode.Engine) :
  let t := trace (transport.HealthCheck h1 (freshWriter fault) r1) eng in
  bodyReads t = []
  /\ serviceCalls t = []
  /\ logsAt LevelError t
     = match fault with
       | Some _ => ["failed to encode health check response"]
       | None => []
       end
  /\ response (outcome (transport.HealthCheck h1 (freshWriter fault) r1) eng)
     ≫= http.Code = Some 200
  /\ outcome (transport.HealthCheck h1 (freshWriter fault) r1) eng
     = outcome (transport.HealthCheck h2 (freshWriter fault) r2) eng.
Proof.
  cbv zeta. unfold transport.HealthCheck. run.
  destruct fault as [e|]; repeat split; reflexivity.
Qed.

(** ** Package logger *)

(** X18. Every level is reached by its own lower-case name: with LOG_LEVEL
    set to the name of a level, [getLogLevelFromEnv] returns that level,
    whatever else the environment holds. *)
Theorem getLogLevelFromEnv_of_name (env : os.Environ) (l : zapcore.Level) :
  logger.getLogLevelFromEnv
    (<["LOG_LEVEL" := zapcore.LevelString l]> env) = l.
Proof.
  unfold logger.getLogLevelFromEnv, os.Getenv.
  rewrite lookup_insert_eq. destruct l; reflexivity.
Qed.

(** X19. [getLogLevelFromEnv] returns a level other than info only when
    LOG_LEVEL is exactly that level's lower-case name; an unset variable and
    every other value (empty, upper-case, unknown) give info.  No other
    variable is read. *)
Theorem getLogLevelFromEnv_fallback (env : os.Environ) :
  (logger.getLogLevelFromEnv env <> zapcore.InfoLevel ->
   env !! "LOG_LEVEL"
   = Some (zapcore.LevelString (logger.getLogLevelFromEnv env)))
  /\ ((forall l : zapcore.Level,
         os.Getenv env "LOG_LEVEL" <> zapcore.LevelString l) ->
      logger.getLogLevelFromEnv env = zapcore.InfoLevel)
  /\ (env !! "LOG_LEVEL" = None ->
      logger.getLogLevelFromEnv env = zapcore.InfoLevel)
  /\ (forall env' : os.Environ,
        env' !! "LOG_LEVEL" = env !! "LOG_LEVEL" ->
        logger.getLogLevelFromEnv env' = logger.getLogLevelFromEnv env).
Proof.
  unfold logger.getLogLevelFromEnv, os.Getenv.
  split; [|split; [|split]].
  - destruct (env !! "LOG_LEVEL") as [v|]; cbn [default from_option id];
      [|intros H; now destruct H].
    destruct (String.eqb_spec v "debug") as [->|?]; [reflexivity|].
    destruct (String.eqb_spec v "info") as [->|?]; [reflexivity|].
    destruct (String.eqb_spec v "warn") as [->|?]; [reflexivity|].
    destruct (String.eqb_spec v "error") as [->|?]; [reflexivity|].
    destruct (String.eqb_spec v "dpanic") as [->|?]; [reflexivity|].
    destruct (String.eqb_spec v "panic") as [->|?]; [reflexivity|].
    destruct (String.eqb_spec v "fatal") as [->|?]; [reflexivity|].
    intros H; now destruct H.
  - intros Hno.
    destruct (String.eqb_spec (default "" (env !! "LOG_LEVEL")) "debug")
      as [E|?]; [destruct (Hno zapcore.DebugLevel E)|].
    destruct (String.eqb_spec (default "" (env !! "LOG_LEVEL")) "info")
      as [E|?]; [reflexivity|].
    destruct (String.eqb_spec (default "" (env !! "LOG_LEVEL")) "warn")
      as [E|?]; [destruct (Hno zapcore.WarnLevel E)|].
    destruct (String.eqb_spec (default "" (env !! "LOG_LEVEL")) "error")
      as [E|?]; [destruct (Hno zapcore.ErrorLevel E)|].
    destruct (String.eqb_spec (default "" (env !! "LOG_LEVEL")) "dpanic")
      as [E|?]; [destruct (Hno zapcore.DPanicLevel E)|].
    destruct (String.eqb_spec (default "" (env !! "LOG_LEVEL")) "panic")
      as [E|?]; [destruct (Hno zapcore.PanicLevel E)|].
    destruct (String.eqb_spec (default "" (env !! "LOG_LEVEL")) "fatal")
      as [E|?]; [destruct (Hno zapcore.FatalLevel E)|].
    reflexivity.
  - intros ->. reflexivity.
  - intros env' ->. reflexivity.
Qed.

Section LoggerProperties.

Variables (Others ZapLogger : Type).
Variable NewDevelopmentConfig : zap.Config Others.
Variable NewProductionConfig : zap.Config Others.
Variable Build :
  zap.Config Others -> list zap.Option -> option ZapLogger * option error.
Variable ErrorText : error -> string.


(** X21. [Sync] is safe at any time: before [InitLogger] it does nothing;
    after an [InitLogger] that returned, it flushes exactly the logger that
    [Build] produced, once per call. *)
Theorem Sync_after_InitLogger (env : os.Environ) :
  logger.Sync Others ZapLogger (logger.initial Others ZapLogger)
  = logger.initial Others ZapLogger
  /\ forall st : logger.State Others ZapLogger,
       logger.InitLogger Others ZapLogger NewDevelopmentConfig
         NewProductionConfig Build ErrorText env
         (logger.initial Others ZapLogger) = (Ret tt, st) ->
       exists lg : ZapLogger,
         logger.Logger _ _ st = Some lg
         /\ logger.syncs _ _ (logger.Sync _ _ st) = [lg]
         /\ logger.syncs _ _ (logger.Sync _ _ (logger.Sync _ _ st))
            = [lg; lg].
Proof.
  split; [reflexivity|]. intros st. unfold logger.InitLogger.
  destruct (Build _ _) as [[lg|] [e|]]; try discriminate.
  intros H. injection H as <-. exists lg. repeat split; reflexivity.
Qed.

End LoggerProperties.
